(** * Bonus turnover report: the aggregation pipeline of [report.py]

    A shallow embedding of the data pipeline of [src/report.py] (the current
    script) and of [src/old/report_final.py] (its predecessor): the filter
    engine [apply_filters], the cleaner [validate_and_clean_data], the
    aggregator [calculate_report] and the sheet namer
    [get_sheet_name_from_data].

    Modelling conventions.
    - pandas floats are exact rationals ([Q]); a sum is compared with [==].
    - A Python [str] that may hold Cyrillic text is a list of code points
      ([text]), so that [len] counts characters; identifiers that are plain
      ASCII (canonical column names, keys of the statistics dict) are
      [string]s.
    - A function that can raise returns a [result]; a function that can
      return [None] returns an [option].
    - [print] is not modelled, but the expressions a [print] evaluates are:
      an exception raised while building the message aborts the function. *)

From Stdlib Require Import ZArith QArith Qabs Lia List String Ascii.
From Stdlib Require Import DecimalString Sorted.
From stdpp Require Import gmap strings.

Local Open Scope Z_scope.

(** ** Python values *)

Module Py.

(** A [str]: its code points. *)
Definition text := list N.

(** An ASCII literal as a [str]. *)
Definition lit (s : string) : text :=
  List.map N_of_ascii (list_ascii_of_string s).

Definition text_eqb (a b : text) : bool := bool_decide (a = b).

(** [str.isspace] on one code point (the characters that [str.split]
    and [str.strip] without argument treat as blanks). *)
Definition isspace (c : N) : bool :=
  ((9 <=? c) && (c <=? 13) || (28 <=? c) && (c <=? 32)
   || (c =? 133) || (c =? 160) || (c =? 5760)
   || (8192 <=? c) && (c <=? 8202)
   || (c =? 8232) || (c =? 8233) || (c =? 8239) || (c =? 8287)
   || (c =? 12288))%N.

(** [s.split()]: the maximal blank-free runs of [s], in order.  [cur] is
    the run being read, reversed. *)
Fixpoint split_from (cur : text) (s : text) : list text :=
  match s with
  | [] => match cur with [] => [] | _ => [rev cur] end
  | c :: s' =>
      if isspace c
      then match cur with
           | [] => split_from [] s'
           | _ => rev cur :: split_from [] s'
           end
      else split_from (c :: cur) s'
  end.

Definition split (s : text) : list text := split_from [] s.

Fixpoint lstrip (s : text) : text :=
  match s with
  | c :: s' => if isspace c then lstrip s' else s
  | [] => []
  end.

(** [s.strip()] *)
Definition strip (s : text) : text := rev (lstrip (rev (lstrip s))).

(** Exceptions the pipeline can raise. *)
Inductive exn : Set :=
| ZeroDivisionError | ValueError | TypeError | KeyError | IndexError
| AttributeError.

Inductive result (A : Type) : Type :=
| Ok (a : A)
| Raise (e : exn).
Arguments Ok {A} a.
Arguments Raise {A} e.

#[global] Instance result_ret : MRet result := fun A a => Ok a.
#[global] Instance result_bind : MBind result := fun A B k m =>
  match m with Ok a => k a | Raise e => Raise e end.

(** [l[i]] for [i >= 0] *)
Definition index {A} (l : list A) (i : nat) : result A :=
  match nth_error l i with Some a => Ok a | None => Raise IndexError end.

(** [str(year)] as [%Y] prints it *)
Definition str_of_Z (z : Z) : text :=
  lit (NilZero.string_of_int (Z.to_int z)).

End Py.
Export Py.

(** ** The raw table *)

(** A [Timestamp]; [ts_clock] is the time of day. *)
Record Timestamp : Set := mkTs {
  ts_year : Z;
  ts_month : Z;
  ts_day : Z;
  ts_clock : Z
}.

(** A cell of a loaded sheet: a number, a text, a date, or nothing
    ([NaN], [None]).  A date stands in one of two ways.  A column that
    holds dates only, some of them missing perhaps, is kept by pandas as a
    column of dates ([datetime64]): its cells are [CDate], with [None] for
    [NaT].  A date among numbers or texts is one of the objects of its
    column: [CTime]. *)
Inductive Cell : Type :=
| CNum (q : Q)
| CStr (s : text)
| CTime (t : Timestamp)
| CDate (t : option Timestamp)
| CNaN.

(** One row of the concatenated table, under the canonical column names of
    [CONFIG["COLS_MAPPING"]].  The cell of a column the table does not have
    stands for nothing. *)
Record RawRow : Type := mkRaw {
  raw_date : Cell;
  raw_bonus_plus : Cell;
  raw_bonus_minus : Cell;
  raw_liters : Cell;
  raw_reason : Cell;
  raw_azs_number : Cell;
  raw_fuel_mark : Cell
}.

(** A [DataFrame] before cleaning: its column names and its rows. *)
Record DataFrame : Type := mkDF {
  columns : list string;
  rows : list RawRow
}.

(** [CONFIG["FILTERS"]] *)
Record Filters : Set := mkFilters {
  ENABLE_FILTERING : bool;
  EXCLUDE_FUEL_MARKS : list Z;
  EXCLUDE_AZS : list Z
}.

(** What the pipeline takes from pandas and the locale:
    - [to_datetime cs] is [pd.to_datetime(cs, dayfirst=True,
      errors="coerce")] on a column, with [None] for [NaT]; the result has
      a date or [NaT] for each cell of the column;
    - [str_to_float s] is the number [pd.to_numeric] reads in the text [s],
      if any;
    - [cell_str c] is [str(c)], as [astype(str)] produces it;
    - [month_name m] is what [%B] prints for month [m] under the locale
      that [setup_locale] left in place;
    - [reset_index_header] is the header [reset_index] gives the column it
      makes of the formatted period index: the name of the index,
      "period", where [strftime] keeps that name, and "index" where the
      formatted index has none;
    - [epoch t] is the integer a column of dates stores for [t]: the time
      from 1970 to [t], counted in the unit of the column (nanoseconds,
      or a coarser unit on a later pandas). *)
Class Platform : Type := {
  to_datetime : list Cell -> list (option Timestamp);
  to_datetime_length : forall cs, length (to_datetime cs) = length cs;
  str_to_float : text -> option Q;
  cell_str : Cell -> text;
  month_name : Z -> text;
  reset_index_header : text;
  epoch : Timestamp -> Z
}.

(** The integer a column of dates stores for [NaT]. *)
Definition iNaT : Z := - 2 ^ 63.

(** [pd.to_numeric(c, errors="coerce")] on one cell.  A number stays, a
    text is read, an object that is neither becomes [NaN]; a column of
    dates is not coerced cell by cell but read as the integers it
    stores. *)
Definition to_numeric `{Platform} (c : Cell) : Cell :=
  match c with
  | CNum q => CNum q
  | CStr s => match str_to_float s with Some q => CNum q | None => CNaN end
  | CTime _ => CNaN
  | CDate (Some t) => CNum (inject_Z (epoch t))
  | CDate None => CNum (inject_Z iNaT)
  | CNaN => CNaN
  end.

(** [.fillna(0)] on a numeric cell *)
Definition fillna0 (c : Cell) : Q :=
  match c with CNum q => q | _ => 0%Q end.

(** [Series.sum()] of rationals; the sum of nothing is 0. *)
Definition Qsum (l : list Q) : Q := fold_right Qplus 0%Q l.

(** [x > 0], [x < 0], [x != 0] on numbers *)
Definition Qpos (x : Q) : bool := negb (Qle_bool x 0).
Definition Qneg (x : Q) : bool := negb (Qle_bool 0 x).
Definition Qnonzero (x : Q) : bool := negb (Qeq_bool x 0).

(** [series.isin(codes)] on one cell: [NaN] and text match nothing. *)
Definition isin (codes : list Z) (c : Cell) : bool :=
  match c with
  | CNum q => existsb (fun z => Qeq_bool q (inject_Z z)) codes
  | _ => false
  end.

(** [series == code] on one cell *)
Definition cell_eq_code (code : Z) (c : Cell) : bool := isin [code] c.

(** A cell that a sum can take: a number, or nothing. *)
Definition numeric_or_missing (c : Cell) : bool :=
  match c with CNum _ | CNaN => true | _ => false end.

(** [series.sum()] as the breakdown prints it with [:,.2f]: missing cells
    are skipped; a text or a date among the cells cannot be added to the
    numbers or printed as one, and a column of dates has no sum (pandas
    raises [TypeError] on the addition, and the format specification
    rejects a value that is not a number; the model records both as
    [TypeError]). *)
Definition sum_for_print (cs : list Cell) : result Q :=
  if forallb numeric_or_missing cs
  then Ok (Qsum (List.map fillna0 cs))
  else Raise TypeError.

(** [df[name]] for a column read by name: [KeyError] when absent. *)
Definition column (df : DataFrame) (name : string) (get : RawRow -> Cell)
  : result (list Cell) :=
  if bool_decide (name ∈ columns df) then Ok (List.map get (rows df))
  else Raise KeyError.

(** [CONFIG], as far as the pipeline reads it. *)
Record Config : Type := mkConfig {
  FILTERS : Filters;
  FUEL_MARKS_DICT : list (Z * text)
}.

(** ** Filter engine: [apply_filters] (report.py, lines 142-241) *)

Definition set_fuel_mark (f : Cell -> Cell) (r : RawRow) : RawRow :=
  mkRaw (raw_date r) (raw_bonus_plus r) (raw_bonus_minus r) (raw_liters r)
        (raw_reason r) (raw_azs_number r) (f (raw_fuel_mark r)).

Definition set_azs_number (f : Cell -> Cell) (r : RawRow) : RawRow :=
  mkRaw (raw_date r) (raw_bonus_plus r) (raw_bonus_minus r) (raw_liters r)
        (raw_reason r) (f (raw_azs_number r)) (raw_fuel_mark r).

(** The breakdown printed per excluded code (lines 181-190 and 214-222):
    for each code that occurs, the sums of [bonus_plus] and of [liters]
    over its rows are computed and printed. *)
Fixpoint breakdown (df : DataFrame) (key : RawRow -> Cell) (codes : list Z)
  : result unit :=
  match codes with
  | [] => Ok tt
  | code :: codes' =>
      let hit := mkDF (columns df)
                   (List.filter (fun r => cell_eq_code code (key r)) (rows df)) in
      let count := Z.of_nat (length (rows hit)) in
      _ ← (if 0 <? count then
             bonus ← column hit "bonus_plus" raw_bonus_plus;
             bonus_sum ← sum_for_print bonus;
             litres ← column hit "liters" raw_liters;
             liters_sum ← sum_for_print litres;
             Ok tt
           else Ok tt);
      breakdown df key codes'
  end.

(** One exclusion rule (lines 166-197 for [fuel_mark], 199-229 for
    [azs_number]; the two blocks differ in the column only).  Returns the
    narrowed table and the number of rows the mask selected. *)
Definition exclude_rule `{Platform} (name : string) (key : RawRow -> Cell)
    (set : (Cell -> Cell) -> RawRow -> RawRow) (codes : list Z)
    (df_filtered : DataFrame) : result (DataFrame * Z) :=
  if negb (bool_decide (codes = [])) && bool_decide (name ∈ columns df_filtered)
  then
    let df1 := mkDF (columns df_filtered)
                 (List.map (set to_numeric) (rows df_filtered)) in
    let mask := fun r => isin codes (key r) in
    let filtered := Z.of_nat (length (List.filter mask (rows df1))) in
    _ ← (if 0 <? filtered then breakdown df1 key codes else Ok tt);
    Ok (mkDF (columns df1) (List.filter (fun r => negb (mask r)) (rows df1)),
        filtered)
  else Ok (df_filtered, 0).

Definition apply_filters `{Platform} (df : DataFrame) (config : Config)
  : result (DataFrame * gmap string Z) :=
  if negb (ENABLE_FILTERING (FILTERS config)) then
    Ok (df, {[ "filtered_rows" := 0; "filtered_fuel" := 0; "filtered_azs" := 0 ]})
  else
    let initial_count := Z.of_nat (length (rows df)) in
    let stats : gmap string Z :=
      {[ "filtered_rows" := 0; "filtered_fuel" := 0; "filtered_azs" := 0;
         "initial_count" := initial_count ]} in
    '(df_filtered, fuel) ←
      exclude_rule "fuel_mark" raw_fuel_mark set_fuel_mark
        (EXCLUDE_FUEL_MARKS (FILTERS config)) df;
    let stats := <["filtered_fuel" := fuel]> stats in
    '(df_filtered, azs) ←
      exclude_rule "azs_number" raw_azs_number set_azs_number
        (EXCLUDE_AZS (FILTERS config)) df_filtered;
    let stats := <["filtered_azs" := azs]> stats in
    let stats :=
      <["filtered_rows" :=
          initial_count - Z.of_nat (length (rows df_filtered))]> stats in
    (* line 237: stats['filtered_rows']/initial_count*100 *)
    _ ← (if initial_count =? 0 then Raise ZeroDivisionError else Ok tt);
    Ok (df_filtered, stats).

(** ** Validator/cleaner: [validate_and_clean_data]
    (report.py, lines 243-282; report_final.py, lines 107-146, the same) *)

(** A row of the cleaned table. *)
Record CleanRow : Type := mkClean {
  date : Timestamp;
  bonus_plus : Q;
  bonus_minus : Q;
  liters : Q;
  reason : text;
  period : Timestamp;
  azs_number : Cell;
  fuel_mark : Cell
}.

#[global] Instance Timestamp_eq_dec : EqDecision Timestamp.
Proof. solve_decision. Defined.

(** [ts.to_period("M").to_timestamp()]: the first instant of the month *)
Definition month_start (t : Timestamp) : Timestamp :=
  mkTs (ts_year t) (ts_month t) 1 0.

(** Chronological order on timestamps. *)
Definition ts_ltb (a b : Timestamp) : bool :=
  match ts_year a ?= ts_year b with
  | Lt => true | Gt => false
  | Eq =>
    match ts_month a ?= ts_month b with
    | Lt => true | Gt => false
    | Eq =>
      match ts_day a ?= ts_day b with
      | Lt => true | Gt => false
      | Eq => ts_clock a <? ts_clock b
      end
    end
  end.

(** [series.min()] and [series.max()] of a date column: [None] is the
    [NaT] an empty column gives. *)
Definition date_min (l : list Timestamp) : option Timestamp :=
  match l with
  | [] => None
  | t :: l' => Some (fold_left (fun m x => if ts_ltb x m then x else m) l' t)
  end.

Definition date_max (l : list Timestamp) : option Timestamp :=
  match l with
  | [] => None
  | t :: l' => Some (fold_left (fun m x => if ts_ltb m x then x else m) l' t)
  end.

(** [t.strftime(...)]: [NaT] does not support it. *)
Definition strftime_date (t : option Timestamp) : result unit :=
  match t with Some _ => Ok tt | None => Raise ValueError end.

Definition required_cols : list string :=
  ["date"; "bonus_plus"; "bonus_minus"; "liters"; "reason"].

(** Lines 263-274 on one row, [d] being what line 255 made of its date:
    [None] when [dropna] drops the row. *)
Definition clean_row `{Platform} (r : RawRow) (d : option Timestamp)
  : option CleanRow :=
  match d with
  | None => None
  | Some d =>
      Some (mkClean d
              (fillna0 (to_numeric (raw_bonus_plus r)))
              (fillna0 (to_numeric (raw_bonus_minus r)))
              (fillna0 (to_numeric (raw_liters r)))
              (strip (cell_str (raw_reason r)))
              (month_start d)
              (raw_azs_number r) (raw_fuel_mark r))
  end.

(** [Ok None] is the [return None] of line 252. *)
Definition validate_and_clean_data `{Platform} (df : DataFrame)
  : result (option (list CleanRow)) :=
  let missing_cols :=
    List.filter (fun col => negb (bool_decide (col ∈ columns df))) required_cols in
  if negb (bool_decide (missing_cols = [])) then Ok None
  else
    let dates := to_datetime (List.map raw_date (rows df)) in
    let df := omap (fun rd => clean_row (fst rd) (snd rd))
                   (combine (rows df) dates) in
    (* line 278: the date range of the summary *)
    _ ← strftime_date (date_min (List.map date df));
    _ ← strftime_date (date_max (List.map date df));
    Ok (Some df).

(** ** Aggregator: [calculate_report] *)

(** A row of the report.  The five numeric columns are, in the source,
    "Бонусов начислено", "Продано литров с начислением бонусов",
    "Продано литров всего", "Бонусов списано" and
    "На 1 литр начислено бонусов".  [label_col] is the header of the column
    that holds the label of this row; under any other label header the row
    has [NaN]. *)
Record ReportRow : Type := mkRow {
  label_col : text;
  label : text;
  bonus_accrued : Q;
  liters_with_bonus : Q;
  liters_total : Q;
  bonus_redeemed : Q;
  rate_per_liter : Q
}.

Definition col_Period : text := [1055; 1077; 1088; 1080; 1086; 1076]%N.
Definition col_bonus_accrued : text :=
  [1041; 1086; 1085; 1091; 1089; 1086; 1074; 32; 1085; 1072; 1095; 1080; 1089;
   1083; 1077; 1085; 1086]%N.
Definition col_liters_with_bonus : text :=
  [1055; 1088; 1086; 1076; 1072; 1085; 1086; 32; 1083; 1080; 1090; 1088; 1086;
   1074; 32; 1089; 32; 1085; 1072; 1095; 1080; 1089; 1083; 1077; 1085; 1080;
   1077; 1084; 32; 1073; 1086; 1085; 1091; 1089; 1086; 1074]%N.
Definition col_liters_total : text :=
  [1055; 1088; 1086; 1076; 1072; 1085; 1086; 32; 1083; 1080; 1090; 1088; 1086;
   1074; 32; 1074; 1089; 1077; 1075; 1086]%N.
Definition col_bonus_redeemed : text :=
  [1041; 1086; 1085; 1091; 1089; 1086; 1074; 32; 1089; 1087; 1080; 1089; 1072;
   1085; 1086]%N.
Definition col_rate : text :=
  [1053; 1072; 32; 49; 32; 1083; 1080; 1090; 1088; 32; 1085; 1072; 1095; 1080;
   1089; 1083; 1077; 1085; 1086; 32; 1073; 1086; 1085; 1091; 1089; 1086;
   1074]%N.

(** The keys of [groupby]: each key once, in ascending order. *)
Fixpoint insert_key (k : Timestamp) (l : list Timestamp) : list Timestamp :=
  match l with
  | [] => [k]
  | h :: t => if ts_ltb k h then k :: l else h :: insert_key k t
  end.

Definition group_keys (ks : list Timestamp) : list Timestamp :=
  fold_right (fun k acc => if bool_decide (k ∈ acc) then acc
                           else insert_key k acc) [] ks.

(** The rows of one group. *)
Definition group (k : Timestamp) (df : list CleanRow) : list CleanRow :=
  List.filter (fun r => bool_decide (period r = k)) df.

(** [df.groupby("period")[col].sum()]: a Series indexed by period *)
Definition groupby_sum (col : CleanRow -> Q) (df : list CleanRow)
  : list (Timestamp * Q) :=
  List.map (fun k => (k, Qsum (List.map col (group k df))))
           (group_keys (List.map period df)).

(** The value a Series has at a key of the frame it is assigned to;
    [None] is the [NaN] of a key the Series lacks. *)
Fixpoint series_get (s : list (Timestamp * Q)) (k : Timestamp) : option Q :=
  match s with
  | [] => None
  | (k', v) :: s' => if bool_decide (k' = k) then Some v else series_get s' k
  end.

(** [.fillna(0)] on an aligned value *)
Definition fillna (v : option Q) : Q :=
  match v with Some q => q | None => 0%Q end.

(** [index.strftime("%B %Y")] on one period *)
Definition strftime_BY `{Platform} (t : Timestamp) : text :=
  month_name (ts_month t) ++ lit " " ++ str_of_Z (ts_year t).

(** [rename(columns={old: new})] on one header *)
Definition rename_column (old new hdr : text) : text :=
  if text_eqb hdr old then new else hdr.

(** The index of [report] once line 336 (197 in report_final.py) has
    assigned it the Series [total_liters].  The frame comes from the
    [groupby] of the rows with an accrual, indexed by their periods; a
    frame with rows keeps that index, and the Series is aligned on it.  A
    frame without rows, what the [groupby] gives when no row has an
    accrual, takes the index of the Series it is assigned: the periods of
    the whole table. *)
Definition report_index (positive_bonus df_clean : list CleanRow)
  : list Timestamp :=
  match group_keys (List.map period positive_bonus) with
  | [] => group_keys (List.map period df_clean)
  | keys => keys
  end.

(** Lines 319-359 of report.py (180-220 of report_final.py, the same):
    the period rows, still indexed by period; [hdr] is the header the
    label column gets afterwards.  At a period of the index for which a
    column has no value the cell is [NaN], which line 346 fills with 0:
    so the two sums of the accruals, in a table without accrual. *)
Definition period_rows `{Platform} (hdr : text) (df : list CleanRow)
  : list ReportRow :=
  let df_clean := df in
  let positive_bonus := List.filter (fun r => Qpos (bonus_plus r)) df_clean in
  let negative_bonus := List.filter (fun r => Qneg (bonus_minus r)) df_clean in
  let sum_bonus_plus := groupby_sum bonus_plus positive_bonus in
  let sum_liters := groupby_sum liters positive_bonus in
  let total_liters := groupby_sum liters df_clean in
  let total_minus :=
    List.map (fun kv => (fst kv, Qabs (snd kv)))
             (groupby_sum bonus_minus negative_bonus) in
  List.map
    (fun k =>
       let accrued := fillna (series_get sum_bonus_plus k) in
       let with_bonus := fillna (series_get sum_liters k) in
       let total := fillna (series_get total_liters k) in
       let redeemed :=
         match negative_bonus with
         | [] => 0%Q
         | _ => fillna (series_get total_minus k)
         end in
       let rate :=
         if Qnonzero with_bonus then (accrued / with_bonus)%Q else 0%Q in
       mkRow hdr (strftime_BY k) accrued with_bonus total redeemed rate)
    (report_index positive_bonus df_clean).

(** ** Sheet namer: what both variants share *)

(** "Отчет" and "Отчет за " *)
Definition s_report : text := [1054; 1090; 1095; 1077; 1090]%N.
Definition s_report_for : text :=
  [1054; 1090; 1095; 1077; 1090; 32; 1079; 1072; 32]%N.

Definition numeric_headers : list text :=
  [col_bonus_accrued; col_liters_with_bonus; col_liters_total;
   col_bonus_redeemed; col_rate].

(** [df_report.columns]: the label headers in use, then the numeric ones. *)
Definition report_columns (df_report : list ReportRow) : list text :=
  remove_dups (List.map label_col df_report) ++ numeric_headers.

(** [df_report[col]] for a label header [col]: the label of each row that
    has one under [col], [None] ([NaN]) for the others. *)
Definition label_column (col : text) (df_report : list ReportRow)
  : list (option text) :=
  List.map (fun r => if text_eqb (label_col r) col then Some (label r) else None)
           df_report.

(** How an f-string prints a label cell. *)
Definition fmt (c : option text) : text :=
  match c with Some s => s | None => lit "nan" end.

(** [c.split()]: a [NaN] is a float and has no [split]. *)
Definition cell_split (c : option text) : result (list text) :=
  match c with Some s => Ok (split s) | None => Raise AttributeError end.

(** Lines 383-391 of report.py (250-259 of report_final.py). *)
Definition sheet_name_of (first_period last_period : option text)
  : result text :=
  let sheet_name :=
    s_report_for ++ fmt first_period ++ lit " - " ++ fmt last_period in
  if (31 <? length sheet_name)%nat then
    first_month ← (t ← cell_split first_period; index t 0);
    last_month ← (t ← cell_split last_period; index t 0);
    last_year ← (t ← cell_split last_period; index t 1);
    Ok (firstn 3 first_month ++ lit "-" ++ firstn 3 last_month
        ++ lit " " ++ last_year)
  else Ok sheet_name.

(** ** The current script, report.py *)

Module Report.

(** Lines 314-364.  Line 362 renames the label column from "period" to
    "Период". *)
Definition calculate_report `{Platform} (df : list CleanRow)
  : list ReportRow :=
  period_rows (rename_column (lit "period") col_Period reset_index_header) df.

(** Lines 366-391. *)
Definition get_sheet_name_from_data (df_report : list ReportRow)
  : result text :=
  if (length df_report =? 0)%nat then Ok s_report
  else
    let cols := report_columns df_report in
    let period_col :=
      if bool_decide (col_Period ∈ cols) then Some col_Period
      else if bool_decide (lit "period" ∈ cols) then Some (lit "period")
      else if bool_decide (lit "index" ∈ cols) then Some (lit "index")
      else None in
    match period_col with
    | None => Ok s_report
    | Some period_col =>
        let col := label_column period_col df_report in
        first_period ← index col 0;
        last_period ← index col (length col - 1);
        sheet_name_of first_period last_period
    end.

(** Lines 306-312: [load_and_process_data] from the concatenated table
    [df] on. *)
Definition load_and_process_data `{Platform} (df : DataFrame) (config : Config)
  : result (option (list CleanRow) * gmap string Z) :=
  '(df_filtered, filter_stats) ← apply_filters df config;
  df_clean ← validate_and_clean_data df_filtered;
  Ok (df_clean, filter_stats).

(** Lines 486-493 of [main]: the report of a concatenated table; [None]
    where [main] exits because there is no cleaned table. *)
Definition run `{Platform} (df : DataFrame) (config : Config)
  : result (option (list ReportRow)) :=
  '(df_raw, _) ← load_and_process_data df config;
  match df_raw with
  | None => Ok None
  | Some df_raw => Ok (Some (calculate_report df_raw))
  end.

End Report.

(** ** The earlier script, old/report_final.py *)

Module ReportFinal.

(** "ИТОГО" *)
Definition s_total : text := [1048; 1058; 1054; 1043; 1054]%N.

(** Lines 176-239.  Line 223 renames the label column from "index" to
    "Период"; where [reset_index] headed it "period" there is nothing to
    rename, the period rows keep their labels under "period", and the
    total row brings its own under "Период". *)
Definition calculate_report `{Platform} (df : list CleanRow)
  : list ReportRow :=
  let report :=
    period_rows (rename_column (lit "index") col_Period reset_index_header)
                df in
  let sum_accrued := Qsum (List.map bonus_accrued report) in
  let sum_with_bonus := Qsum (List.map liters_with_bonus report) in
  let total_row :=
    mkRow col_Period s_total
      sum_accrued
      sum_with_bonus
      (Qsum (List.map liters_total report))
      (Qsum (List.map bonus_redeemed report))
      (if Qnonzero sum_with_bonus then (sum_accrued / sum_with_bonus)%Q
       else 0%Q) in
  report ++ [total_row].

(** Lines 241-261. *)
Definition get_sheet_name_from_data (df_report : list ReportRow)
  : result text :=
  if (length df_report <=? 1)%nat then Ok s_report
  else
    if bool_decide (col_Period ∈ report_columns df_report) then
      let col := label_column col_Period df_report in
      first_period ← index col 0;
      last_period ← index col (length col - 2);
      sheet_name_of first_period last_period
    else Raise KeyError.

(** Lines 165-173: [load_and_process_data] from the concatenated table
    [df] on; this variant has no filter. *)
Definition load_and_process_data `{Platform} (df : DataFrame)
  : result (option (list CleanRow)) :=
  validate_and_clean_data df.

End ReportFinal.

(** ** A concrete platform, for the examples

    Dates are read from date cells only, numbers from number cells only,
    months bear their English names (the fallback of [setup_locale]),
    [strftime] keeps the name of the index, and a column of dates counts
    microseconds, the clock of a [Timestamp] being the microseconds since
    midnight. *)

Definition date_of_cell (c : Cell) : option Timestamp :=
  match c with CTime t => Some t | CDate t => t | _ => None end.

(** The days from 1 January 1970 to a day of the Gregorian calendar. *)
Definition days_from_civil (y m d : Z) : Z :=
  let y := if m <=? 2 then y - 1 else y in
  let era := y / 400 in
  let yoe := y - era * 400 in
  let doy := (153 * (if 2 <? m then m - 3 else m + 9) + 2) / 5 + d - 1 in
  let doe := yoe * 365 + yoe / 4 - yoe / 100 + doy in
  era * 146097 + doe - 719468.

Definition microseconds (t : Timestamp) : Z :=
  days_from_civil (ts_year t) (ts_month t) (ts_day t) * 86400000000
  + ts_clock t.

Definition english_month (m : Z) : text :=
  lit (match m with
       | 1 => "January" | 2 => "February" | 3 => "March" | 4 => "April"
       | 5 => "May" | 6 => "June" | 7 => "July" | 8 => "August"
       | 9 => "September" | 10 => "October" | 11 => "November"
       | 12 => "December" | _ => ""
       end)%string.

Definition plain_platform : Platform := {|
  to_datetime := List.map date_of_cell;
  to_datetime_length := length_map _;
  str_to_float := fun _ => None;
  cell_str := fun c => match c with CStr s => s | _ => lit "nan" end;
  month_name := english_month;
  reset_index_header := lit "period";
  epoch := microseconds
|}.

(** ** Sample data *)

(** A cleaned row dated [d] with the given amounts. *)
Definition sample_clean (d : Timestamp) (plus minus volume : Q) : CleanRow :=
  mkClean d plus minus volume [] (month_start d) CNaN CNaN.

(** A raw row with a date cell, three amount cells and a fuel mark. *)
Definition sample_raw (d plus minus volume mark : Cell) : RawRow :=
  mkRaw d plus minus volume (CStr []) CNaN mark.

Definition all_columns : list string :=
  ["date"; "bonus_plus"; "bonus_minus"; "liters"; "reason"; "azs_number";
   "fuel_mark"].

Definition jan_15 : Timestamp := mkTs 2024 1 15 0.
Definition feb_03 : Timestamp := mkTs 2024 2 3 0.


(** Two January rows, of fuel marks 14 and 15. *)
Definition two_marks : DataFrame :=
  mkDF all_columns
    [sample_raw (CTime jan_15) (CNum 10) (CNum 0) (CNum 5) (CNum 14);
     sample_raw (CTime jan_15) (CNum 4) (CNum 0) (CNum 3) (CNum 15)].

(** A table that holds only a row of fuel mark 14. *)
Definition only_mark_14 : DataFrame :=
  mkDF all_columns
    [sample_raw (CTime jan_15) (CNum 10) (CNum 0) (CNum 5) (CNum 14)].

(** Filtering on, fuel mark 14 excluded. *)
Definition exclude_mark_14 : Config :=
  mkConfig (mkFilters true [14] []) [].

(** Filtering off, with the same exclusion list. *)
Definition filtering_off : Config :=
  mkConfig (mkFilters false [14] []) [].

(** A table whose only row has a text that is no date in its date cell. *)
Definition one_bad_date : DataFrame :=
  mkDF all_columns
    [sample_raw (CStr (lit "soon")) (CNum 10) (CNum 0) (CNum 5) (CNum 14)].

(** Twenty-four months with an accrual each, January 2024 to December
    2025. *)
Definition two_years : list CleanRow :=
  List.map (fun i => sample_clean (mkTs (2024 + i / 12) (1 + i mod 12) 10 0)
                       1 0 1)
           (seqZ 0 24).

(** ** Notions the statements use *)

(** The rate of a row is the guarded quotient of its own two sums. *)
Definition rate_guarded (r : ReportRow) : Prop :=
  rate_per_liter r
  = if Qnonzero (liters_with_bonus r)
    then (bonus_accrued r / liters_with_bonus r)%Q else 0%Q.

(** The amounts the breakdown adds up are numbers or missing, and their
    columns are there. *)
Definition amounts_summable (df : DataFrame) : bool :=
  bool_decide ("bonus_plus" ∈ columns df)
  && bool_decide ("liters" ∈ columns df)
  && forallb (fun r => numeric_or_missing (raw_bonus_plus r)
                       && numeric_or_missing (raw_liters r)) (rows df).

(** An exclusion rule applies: it has codes, and the table has the column
    [name]. *)
Definition active (name : string) (codes : list Z) (df : DataFrame) : bool :=
  negb (bool_decide (codes = [])) && bool_decide (name ∈ columns df).

(** A row on which the rule that reads [key] has nothing left to do. *)
Definition settled `{Platform} (key : RawRow -> Cell) (codes : list Z)
    (r : RawRow) : Prop :=
  to_numeric (key r) = key r /\ isin codes (key r) = false.

(** A word: a text that is not empty and holds no blank. *)
Definition word (s : text) : Prop :=
  s <> [] /\ forallb (fun c => negb (isspace c)) s = true.

(** The rows of the cleaned table, given what line 255 read in the date
    column. *)
Definition cleaned `{Platform} (l : list RawRow)
    (dates : list (option Timestamp)) : list CleanRow :=
  omap (fun rd => clean_row (fst rd) (snd rd)) (combine l dates).

(** What a run produced, if it produced anything. *)
Definition produced {A} (r : result (option A)) : option A :=
  match r with Ok (Some a) => Some a | _ => None end.

(** ** More of the script *)

(** [df.empty]: no rows, or no columns. *)
Definition empty (df : DataFrame) : bool :=
  bool_decide (rows df = []) || bool_decide (columns df = []).

(** A row as [pd.concat] lays it under the union of the columns: the
    cells of the columns its own table lacks are [NaN]. *)
Definition reindex_row (cols : list string) (r : RawRow) : RawRow :=
  let cell (name : string) (c : Cell) :=
    if bool_decide (name ∈ cols) then c else CNaN in
  mkRaw (cell "date" (raw_date r)) (cell "bonus_plus" (raw_bonus_plus r))
        (cell "bonus_minus" (raw_bonus_minus r)) (cell "liters" (raw_liters r))
        (cell "reason" (raw_reason r)) (cell "azs_number" (raw_azs_number r))
        (cell "fuel_mark" (raw_fuel_mark r)).

(** [pd.concat(all_data, ignore_index=True, sort=False)]: the columns in
    the order they first appear, the rows of the tables one after the
    other. *)
Definition concat (all_data : list DataFrame) : DataFrame :=
  mkDF (fold_left (fun acc name => if bool_decide (name ∈ acc) then acc
                                   else acc ++ [name])
                  (List.concat (List.map columns all_data)) [])
       (List.concat
          (List.map (fun df => List.map (reindex_row (columns df)) (rows df))
                    all_data)).

(** Lines 284-312 of report.py: [load_and_process_data] whole, [loaded]
    being what [load_excel_file] returned for each source file, [None]
    for a file it could not read. *)
Definition load_and_process_files `{Platform} (loaded : list (option DataFrame))
    (config : Config)
  : result (option (list CleanRow) * option (gmap string Z)) :=
  let all_data :=
    List.filter (fun df_temp => negb (empty df_temp)) (omap id loaded) in
  if bool_decide (all_data = []) then Ok (None, None)
  else
    let df := concat all_data in
    '(df_clean, filter_stats) ← Report.load_and_process_data df config;
    Ok (df_clean, Some filter_stats).

(** Lines 557-561 of report.py: the average that [main] prints, when it
    prints one. *)
Definition average_rate (df_report : list ReportRow) : option Q :=
  let total_bonus := Qsum (List.map bonus_accrued df_report) in
  let total_liters_with_bonus :=
    Qsum (List.map liters_with_bonus df_report) in
  if Qpos total_liters_with_bonus
  then Some (total_bonus / total_liters_with_bonus)%Q
  else None.


(** The rows with an accrual. *)
Definition accruals (df : list CleanRow) : list CleanRow :=
  List.filter (fun r => Qpos (bonus_plus r)) df.

(** Three January rows: mark 14 at site 7, mark 15 at site 7, mark 15 at
    site 8, the marks given as texts. *)
Definition three_sites : DataFrame :=
  mkDF all_columns
    [mkRaw (CTime jan_15) (CNum 10) (CNum 0) (CNum 5) (CStr []) (CNum 7)
           (CStr (lit "14"));
     mkRaw (CTime jan_15) (CNum 4) (CNum 0) (CNum 3) (CStr []) (CNum 7)
           (CStr (lit "15"));
     mkRaw (CTime jan_15) (CNum 6) (CNum 0) (CNum 2) (CStr []) (CNum 8)
           (CStr (lit "15"))].

(** Filtering on, fuel mark 14 and site 7 excluded. *)
Definition exclude_14_and_site_7 : Config :=
  mkConfig (mkFilters true [14] [7]) [].

(** A platform that reads the texts "14" and "15" as numbers, and is
    [plain_platform] otherwise. *)
Definition marks_platform : Platform := {|
  to_datetime := List.map date_of_cell;
  to_datetime_length := length_map _;
  str_to_float := fun s =>
    if text_eqb s (lit "14") then Some 14%Q
    else if text_eqb s (lit "15") then Some 15%Q else None;
  cell_str := fun c => match c with CStr s => s | _ => lit "nan" end;
  month_name := english_month;
  reset_index_header := lit "period";
  epoch := microseconds
|}.

(** [plain_platform] with a formatted index that has no name. *)
Definition index_platform : Platform := {|
  to_datetime := List.map date_of_cell;
  to_datetime_length := length_map _;
  str_to_float := fun _ => None;
  cell_str := fun c => match c with CStr s => s | _ => lit "nan" end;
  month_name := english_month;
  reset_index_header := lit "index";
  epoch := microseconds
|}.

(** What the aggregator reads of a cleaned row: its period and its three
    amounts. *)
Definition amounts_of (c : CleanRow) : CleanRow :=
  mkClean (period c) (bonus_plus c) (bonus_minus c) (liters c) []
          (period c) CNaN CNaN.

(** A text without a blank at either end. *)
Definition trimmed (s : text) : Prop :=
  (forall c, List.hd_error s = Some c -> isspace c = false)
  /\ (forall c, List.hd_error (rev s) = Some c -> isspace c = false).

(** The rows the two rules keep, told on the raw table: those whose mark
    and site, read as numbers, are on neither list. *)
Definition kept `{Platform} (config : Config) (r : RawRow) : bool :=
  negb (isin (EXCLUDE_FUEL_MARKS (FILTERS config))
             (to_numeric (raw_fuel_mark r)))
  && negb (isin (EXCLUDE_AZS (FILTERS config))
                (to_numeric (raw_azs_number r))).

(** * Properties *)

(** ** Sums and groups *)

Section Sums.
Context {A : Type}.
Implicit Types (f : A -> Q) (p q : A -> bool) (l : list A).

Lemma filter_ext_bool p q l :
  (forall x, p x = q x) -> List.filter p l = List.filter q l.
Proof.
  intros Hpq. induction l as [|x l IH]; simpl; [reflexivity|].
  rewrite Hpq, IH. reflexivity.
Qed.

(** A sum over the rows that pass one of two exclusive tests is the sum
    of the two sums. *)
Lemma Qsum_filter_split f p q l :
  (forall x, p x = true -> q x = false) ->
  (Qsum (List.map f (List.filter (fun x => p x || q x) l))
   == Qsum (List.map f (List.filter p l)) + Qsum (List.map f (List.filter q l)))%Q.
Proof.
  intros Hex. induction l as [|x l IH]; simpl.
  - ring.
  - destruct (p x) eqn:Hp; simpl.
    + rewrite (Hex x Hp). simpl. rewrite IH. ring.
    + destruct (q x); simpl; rewrite IH; ring.
Qed.

Lemma length_filter_split p l :
  (length (List.filter p l) + length (List.filter (fun x => negb (p x)) l)
   = length l)%nat.
Proof.
  induction l as [|x l IH]; simpl; [reflexivity|].
  destruct (p x); simpl; lia.
Qed.

Lemma filter_all p l :
  (forall x, In x l -> p x = true) -> List.filter p l = l.
Proof.
  intros Hall. induction l as [|x l IH]; simpl; [reflexivity|].
  rewrite (Hall x (or_introl eq_refl)), IH; [reflexivity|].
  intros y Hy. apply Hall. now right.
Qed.

Lemma filter_none p l :
  (forall x, In x l -> p x = false) -> List.filter p l = [].
Proof.
  intros Hnone. induction l as [|x l IH]; simpl; [reflexivity|].
  rewrite (Hnone x (or_introl eq_refl)). apply IH.
  intros y Hy. apply Hnone. now right.
Qed.

End Sums.

Section Groups.

Lemma elem_of_insert_key x k l : x ∈ insert_key k l <-> x = k \/ x ∈ l.
Proof.
  induction l as [|h t IH]; simpl.
  - set_solver.
  - destruct (ts_ltb k h).
    + rewrite !elem_of_cons. tauto.
    + rewrite !elem_of_cons, IH. tauto.
Qed.

Lemma NoDup_insert_key k l : k ∉ l -> NoDup l -> NoDup (insert_key k l).
Proof.
  induction l as [|h t IH]; simpl; intros Hk Hnd.
  - apply NoDup_singleton.
  - destruct (ts_ltb k h).
    + now apply NoDup_cons.
    + apply NoDup_cons in Hnd as [Hh Ht].
      apply not_elem_of_cons in Hk as [Hkh Hkt].
      apply NoDup_cons. split; [|now apply IH].
      rewrite elem_of_insert_key. intros [->|Hin]; [now apply Hkh|now apply Hh].
Qed.

Lemma elem_of_group_keys k ks : k ∈ group_keys ks <-> k ∈ ks.
Proof.
  induction ks as [|h t IH]; simpl; [reflexivity|].
  case_bool_decide as Hin.
  - rewrite elem_of_cons, IH. split; [tauto|].
    intros [->|Hk]; [now apply IH in Hin|exact Hk].
  - rewrite elem_of_insert_key, elem_of_cons, IH. tauto.
Qed.

Lemma NoDup_group_keys ks : NoDup (group_keys ks).
Proof.
  induction ks as [|h t IH]; simpl; [apply NoDup_nil_2|].
  case_bool_decide as Hin; [exact IH|now apply NoDup_insert_key].
Qed.

(** A Series built over a list of keys has a value exactly at those keys. *)
Lemma series_get_map (g : Timestamp -> Q) ks k :
  series_get (List.map (fun k => (k, g k)) ks) k
  = if bool_decide (k ∈ ks) then Some (g k) else None.
Proof.
  induction ks as [|h t IH]; simpl; [reflexivity|].
  destruct (decide (h = k)) as [->|Hne].
  - rewrite !bool_decide_eq_true_2; [reflexivity|set_solver|reflexivity].
  - rewrite (bool_decide_eq_false_2 (h = k)) by exact Hne.
    rewrite IH. repeat case_bool_decide; set_solver.
Qed.

Lemma series_get_groupby col df k :
  k ∈ List.map period df ->
  series_get (groupby_sum col df) k = Some (Qsum (List.map col (group k df))).
Proof.
  intros Hk. unfold groupby_sum.
  rewrite (series_get_map (fun k => Qsum (List.map col (group k df)))).
  rewrite bool_decide_eq_true_2; [reflexivity|].
  now apply elem_of_group_keys.
Qed.

(** Summing the group sums over distinct keys is summing over the rows
    whose period is one of the keys. *)
Lemma Qsum_groups (col : CleanRow -> Q) df ks :
  NoDup ks ->
  (Qsum (List.map (fun k => Qsum (List.map col (group k df))) ks)
   == Qsum (List.map col
              (List.filter (fun r => bool_decide (period r ∈ ks)) df)))%Q.
Proof.
  induction 1 as [|k ks Hk Hnd IH]; cbn [List.map Qsum fold_right].
  - rewrite (filter_none _ df); [reflexivity|].
    intros r _. apply bool_decide_eq_false_2. set_solver.
  - rewrite IH. unfold group.
    rewrite <- Qsum_filter_split.
    + rewrite (filter_ext_bool
                 (fun r => bool_decide (period r ∈ k :: ks))
                 (fun r => bool_decide (period r = k)
                           || bool_decide (period r ∈ ks))); [reflexivity|].
      intros r. repeat case_bool_decide; set_solver.
    + intros r Hr. apply bool_decide_eq_true in Hr. subst k.
      now apply bool_decide_eq_false_2.
Qed.

(** An aligned value, once filled, is the sum over the rows of the
    period, whether the Series has the period or not. *)
Lemma fillna_groupby col df k :
  fillna (series_get (groupby_sum col df) k)
  = Qsum (List.map col (group k df)).
Proof.
  unfold groupby_sum.
  rewrite (series_get_map (fun k => Qsum (List.map col (group k df)))).
  case_bool_decide as Hk; [reflexivity|].
  unfold group. rewrite filter_none; [reflexivity|].
  intros r Hr. apply bool_decide_eq_false_2. intros Hp. apply Hk.
  apply elem_of_group_keys, list_elem_of_In, in_map_iff. eauto.
Qed.

Lemma group_keys_nil ks : group_keys ks = [] -> ks = [].
Proof.
  destruct ks as [|k ks]; [reflexivity|]. intros Hnil.
  assert (Hk : k ∈ group_keys (k :: ks))
    by (apply elem_of_group_keys, elem_of_cons; now left).
  rewrite Hnil in Hk. inversion Hk.
Qed.

(** With an accrual the index is made of the periods of the accruals;
    without, of the periods of the table. *)
Lemma report_index_accruals pos df :
  pos <> [] -> report_index pos df = group_keys (List.map period pos).
Proof.
  intros Hne. unfold report_index.
  destruct (group_keys (List.map period pos)) eqn:Hkeys; [|reflexivity].
  apply group_keys_nil, map_eq_nil in Hkeys. contradiction.
Qed.

Lemma report_index_no_accrual df :
  report_index [] df = group_keys (List.map period df).
Proof. reflexivity. Qed.

Lemma report_index_cases pos df :
  (pos = [] /\ report_index pos df = group_keys (List.map period df))
  \/ (pos <> [] /\ report_index pos df = group_keys (List.map period pos)).
Proof.
  destruct pos as [|c l]; [left; split; reflexivity|right].
  split; [discriminate|]. now apply report_index_accruals.
Qed.

Lemma NoDup_report_index pos df : NoDup (report_index pos df).
Proof.
  destruct (report_index_cases pos df) as [[_ ->]|[_ ->]];
    apply NoDup_group_keys.
Qed.

(** Every period of the index is a period of the table. *)
Lemma report_index_periods (p : CleanRow -> bool) df k :
  k ∈ report_index (List.filter p df) df -> k ∈ List.map period df.
Proof.
  destruct (report_index_cases (List.filter p df) df) as [[_ ->]|[_ ->]];
    rewrite elem_of_group_keys; [tauto|].
  rewrite !list_elem_of_In, !in_map_iff. intros (r & Hr & Hin).
  apply filter_In in Hin. exists r. tauto.
Qed.

(** The index is empty for the table without rows only. *)
Lemma report_index_nil (p : CleanRow -> bool) df :
  report_index (List.filter p df) df = [] -> df = [].
Proof.
  destruct (report_index_cases (List.filter p df) df) as [[_ ->]|[Hne ->]];
    intros Hnil%group_keys_nil%map_eq_nil; [exact Hnil|contradiction].
Qed.

End Groups.

(** ** The aggregator *)

(** The rows of the report, one per period of the index, in terms of the
    rows of the period. *)
Lemma period_rows_eq `{Platform} hdr (df : list CleanRow) :
  period_rows hdr df
  = List.map
      (fun k =>
         let accrued := Qsum (List.map bonus_plus (group k (accruals df))) in
         let with_bonus := Qsum (List.map liters (group k (accruals df))) in
         mkRow hdr (strftime_BY k) accrued with_bonus
           (Qsum (List.map liters (group k df)))
           (match List.filter (fun r => Qneg (bonus_minus r)) df with
            | [] => 0%Q
            | _ => fillna (series_get
                             (List.map (fun kv => (fst kv, Qabs (snd kv)))
                                (groupby_sum bonus_minus
                                   (List.filter (fun r => Qneg (bonus_minus r))
                                                df))) k)
            end)
           (if Qnonzero with_bonus then (accrued / with_bonus)%Q else 0%Q))
      (report_index (accruals df) df).
Proof.
  unfold period_rows. fold (accruals df). apply map_ext. intros k.
  cbv zeta. rewrite !fillna_groupby. reflexivity.
Qed.




Example january_scenario :
  exists r,
    @Report.calculate_report plain_platform
      [sample_clean jan_15 10 0 5; sample_clean jan_15 0 (-2) 3] = [r]
    /\ (bonus_accrued r == 10)%Q /\ (liters_with_bonus r == 5)%Q
    /\ (liters_total r == 8)%Q /\ (bonus_redeemed r == 2)%Q
    /\ (rate_per_liter r == 2)%Q.
Proof. eexists. split; [vm_compute; reflexivity|]. repeat split. Qed.


(** A table without any accrual, 3 liters and a redemption of 2 in
    January, 7 liters in February: the report has a row for each month,
    without accrual and with the rate 0. *)
Example no_accrual_scenario :
  @Report.calculate_report plain_platform
    [sample_clean jan_15 0 (-2) 3; sample_clean feb_03 0 0 7]
  = [mkRow col_Period (lit "January 2024") 0 0 3 2 0;
     mkRow col_Period (lit "February 2024") 0 0 7 0 0].
Proof. vm_compute. reflexivity. Qed.

(** The same table through report_final.py: two period rows, and a total
    row of 10 liters and 2 bonuses redeemed. *)
Example no_accrual_total_row :
  exists r1 r2 total,
    @ReportFinal.calculate_report plain_platform
      [sample_clean jan_15 0 (-2) 3; sample_clean feb_03 0 0 7]
    = [r1; r2; total]
    /\ label total = ReportFinal.s_total
    /\ (bonus_accrued total == 0)%Q /\ (liters_total total == 10)%Q
    /\ (bonus_redeemed total == 2)%Q /\ (rate_per_liter total == 0)%Q.
Proof. eexists _, _, _. split; [vm_compute; reflexivity|]. repeat split. Qed.

Lemma rate_guarded_period_rows `{Platform} hdr df :
  Forall rate_guarded (period_rows hdr df).
Proof.
  unfold period_rows. apply List.Forall_forall. intros r Hr.
  apply in_map_iff in Hr as (k & <- & _). reflexivity.
Qed.

Lemma rate_guarded_cases (r : ReportRow) :
  rate_guarded r ->
  ((liters_with_bonus r == 0)%Q -> rate_per_liter r = 0%Q)
  /\ (~ (liters_with_bonus r == 0)%Q ->
      rate_per_liter r = (bonus_accrued r / liters_with_bonus r)%Q).
Proof.
  unfold rate_guarded, Qnonzero. intros ->.
  destruct (Qeq_bool (liters_with_bonus r) 0) eqn:Hz; simpl.
  - apply Qeq_bool_iff in Hz. split; [reflexivity|tauto].
  - apply Qeq_bool_neq in Hz. split; [tauto|reflexivity].
Qed.

(** C9: in every row of the report, [rate_per_liter] is exactly 0 when
    [liters_with_bonus] is 0 and [bonus_accrued / liters_with_bonus]
    otherwise; the aggregator is a total function, the quotient is taken
    behind the test only.  Both variants (in report_final.py the total row
    as well). *)
Theorem C9_rate_per_liter_guarded `{Platform} (df : list CleanRow)
    (r : ReportRow) :
  In r (Report.calculate_report df) \/ In r (ReportFinal.calculate_report df) ->
  ((liters_with_bonus r == 0)%Q -> rate_per_liter r = 0%Q)
  /\ (~ (liters_with_bonus r == 0)%Q ->
      rate_per_liter r = (bonus_accrued r / liters_with_bonus r)%Q).
Proof.
  intros Hr. apply rate_guarded_cases.
  destruct Hr as [Hr|Hr].
  - revert r Hr. apply List.Forall_forall, rate_guarded_period_rows.
  - unfold ReportFinal.calculate_report in Hr.
    apply in_app_or in Hr as [Hr|[<-|[]]].
    + revert r Hr. apply List.Forall_forall, rate_guarded_period_rows.
    + reflexivity.
Qed.

(** A table without accrual, where the test decides every row: February
    has 7 liters, none of them with a bonus, and the rate 0.  And a
    February with an accrual of 4 on no liters. *)
Lemma C9_witness :
  let r0 := mkRow col_Period (lit "February 2024") 0 0 7 0 0 in
  let r := mkRow col_Period (lit "February 2024") 4 0 0 0 0 in
  (((liters_with_bonus r0 == 0)%Q -> rate_per_liter r0 = 0%Q)
   /\ (~ (liters_with_bonus r0 == 0)%Q ->
       rate_per_liter r0 = (bonus_accrued r0 / liters_with_bonus r0)%Q))
  /\ (((liters_with_bonus r == 0)%Q -> rate_per_liter r = 0%Q)
      /\ (~ (liters_with_bonus r == 0)%Q ->
          rate_per_liter r = (bonus_accrued r / liters_with_bonus r)%Q)).
Proof.
  split.
  - apply (@C9_rate_per_liter_guarded plain_platform
             [sample_clean jan_15 0 (-2) 3; sample_clean feb_03 0 0 7]).
    left. vm_compute. right. left. reflexivity.
  - apply (@C9_rate_per_liter_guarded plain_platform
             [sample_clean jan_15 10 0 5; sample_clean feb_03 4 0 0]).
    left. vm_compute. right. left. reflexivity.
Defined.

(** C2, as the code has it: report_final.py ends its report with one total
    row, labelled "ИТОГО" under "Период", whose four sums are the sums of
    the period rows and whose rate is the quotient of two of them, 0 when
    the divisor is 0.  (report.py appends no such row.) *)
Theorem C2_total_row `{Platform} (df : list CleanRow) :
  exists (report : list ReportRow) (total : ReportRow),
    ReportFinal.calculate_report df = report ++ [total]
    /\ report
       = period_rows
           (rename_column (lit "index") col_Period reset_index_header) df
    /\ label_col total = col_Period
    /\ label total = ReportFinal.s_total
    /\ bonus_accrued total = Qsum (List.map bonus_accrued report)
    /\ liters_with_bonus total = Qsum (List.map liters_with_bonus report)
    /\ liters_total total = Qsum (List.map liters_total report)
    /\ bonus_redeemed total = Qsum (List.map bonus_redeemed report)
    /\ (~ (Qsum (List.map liters_with_bonus report) == 0)%Q ->
        rate_per_liter total
        = (Qsum (List.map bonus_accrued report)
           / Qsum (List.map liters_with_bonus report))%Q)
    /\ ((Qsum (List.map liters_with_bonus report) == 0)%Q ->
        rate_per_liter total = 0%Q).
Proof.
  eexists _, _. split; [reflexivity|].
  repeat (split; [reflexivity|]).
  cbn [rate_per_liter]. unfold Qnonzero.
  destruct (Qeq_bool _ 0) eqn:Hz; simpl.
  - apply Qeq_bool_iff in Hz. split; [tauto|reflexivity].
  - apply Qeq_bool_neq in Hz. split; [reflexivity|tauto].
Qed.

(** With 10 bonuses on 5 liters in January and 20 on 5 in February the
    total rate is 30/10 = 3, not 2 + 4. *)
Lemma C2_witness :
  let df := [sample_clean jan_15 10 0 5; sample_clean feb_03 20 0 5] in
  exists (report : list ReportRow) (total : ReportRow),
    @ReportFinal.calculate_report plain_platform df = report ++ [total]
    /\ (rate_per_liter total == 3)%Q
    /\ ~ (rate_per_liter total == Qsum (List.map rate_per_liter report))%Q.
Proof.
  intros df.
  destruct (@C2_total_row plain_platform df)
    as (report & total & Hout & Hrep & _ & _ & _ & _ & _ & _ & Hrate & _).
  exists report, total. split; [exact Hout|].
  subst report. rewrite Hrate.
  - vm_compute. split; [reflexivity|discriminate].
  - vm_compute. discriminate.
Defined.

(** C2 fails as stated on report.py: the report of one January row is that
    one period row, and nothing labelled "ИТОГО" follows it. *)
Lemma C2_counterexample :
  let df := [sample_clean jan_15 10 0 5] in
  ~ exists (report : list ReportRow) (total : ReportRow),
      @Report.calculate_report plain_platform df = report ++ [total]
      /\ label total = ReportFinal.s_total.
Proof.
  intros df (report & total & Hout & Hlabel).
  vm_compute in Hout. destruct report as [|r [|r' report]].
  - injection Hout as <-. vm_compute in Hlabel. discriminate.
  - discriminate.
  - discriminate.
Qed.

(** ** The filter engine *)

Lemma to_numeric_idem `{Platform} (c : Cell) :
  to_numeric (to_numeric c) = to_numeric c.
Proof.
  destruct c as [q|s|t|[t|]|]; simpl; try reflexivity.
  destruct (str_to_float s); reflexivity.
Qed.

(** A column of dates read as numbers: the microseconds from 1970 to each
    date, and the integer that stands for [NaT]; a date among other
    objects is no number. *)
Example to_numeric_dates :
  @to_numeric plain_platform (CDate (Some jan_15)) = CNum 1705276800000000
  /\ @to_numeric plain_platform (CDate None) = CNum (-9223372036854775808)
  /\ @to_numeric plain_platform (CTime jan_15) = CNaN.
Proof. repeat split. Qed.

Lemma result_bind_Ok {A B} (m : result A) (k : A -> result B) (b : B) :
  m ≫= k = Ok b -> exists a, m = Ok a /\ k a = Ok b.
Proof. destruct m as [a|e]; simpl; [eauto|discriminate]. Qed.

Lemma forallb_filter {A} (p q : A -> bool) (l : list A) :
  forallb p l = true -> forallb p (List.filter q l) = true.
Proof.
  induction l as [|x l IH]; simpl; [reflexivity|].
  intros [Hx Hl]%andb_true_iff. destruct (q x); simpl; [|auto].
  rewrite Hx. auto.
Qed.

Lemma forallb_map_compose {A B} (p : B -> bool) (g : A -> B) (l : list A) :
  forallb p (List.map g l) = forallb (fun x => p (g x)) l.
Proof.
  induction l as [|x l IH]; simpl; [reflexivity|]. now rewrite IH.
Qed.

Lemma forallb_weaken {A} (p q : A -> bool) (l : list A) :
  (forall x, p x = true -> q x = true) ->
  forallb p l = true -> forallb q l = true.
Proof.
  intros Hpq. rewrite !forallb_forall. auto.
Qed.

Lemma sum_for_print_ok (get : RawRow -> Cell) (l : list RawRow) :
  forallb (fun r => numeric_or_missing (get r)) l = true ->
  exists q, sum_for_print (List.map get l) = Ok q.
Proof.
  intros Hall. unfold sum_for_print.
  rewrite forallb_map_compose, Hall. eauto.
Qed.

Lemma breakdown_ok (df : DataFrame) key codes :
  amounts_summable df = true -> breakdown df key codes = Ok tt.
Proof.
  unfold amounts_summable.
  intros [[Hb Hl]%andb_true_iff Hrows]%andb_true_iff.
  induction codes as [|code codes IH]; simpl; [reflexivity|].
  destruct (0 <? _); simpl; [|exact IH].
  unfold column. simpl. rewrite Hb, Hl. simpl.
  destruct (sum_for_print_ok raw_bonus_plus
              (List.filter (fun r => cell_eq_code code (key r)) (rows df)))
    as [q1 ->].
  { apply forallb_filter. eapply forallb_weaken; [|exact Hrows].
    intros r [? ?]%andb_true_iff. assumption. }
  simpl.
  destruct (sum_for_print_ok raw_liters
              (List.filter (fun r => cell_eq_code code (key r)) (rows df)))
    as [q2 ->].
  { apply forallb_filter. eapply forallb_weaken; [|exact Hrows].
    intros r [? ?]%andb_true_iff. assumption. }
  simpl. exact IH.
Qed.

(** One rule, on the column it reads through [key] and writes through
    [set]. *)
Section Rule.
Context `{Platform}.
Variables (name : string) (key : RawRow -> Cell)
          (set : (Cell -> Cell) -> RawRow -> RawRow) (codes : list Z).
Hypothesis key_set : forall f r, key (set f r) = f (key r).
Hypothesis set_same : forall f r, f (key r) = key r -> set f r = r.
Hypothesis set_amounts :
  forall f r, raw_bonus_plus (set f r) = raw_bonus_plus r
              /\ raw_liters (set f r) = raw_liters r.

Lemma exclude_rule_inv df df1 n :
  exclude_rule name key set codes df = Ok (df1, n) ->
  (active name codes df = false /\ df1 = df /\ n = 0)
  \/ (active name codes df = true
      /\ df1 = mkDF (columns df)
                 (List.filter (fun r => negb (isin codes (key r)))
                    (List.map (set to_numeric) (rows df)))
      /\ n = Z.of_nat (length (List.filter (fun r => isin codes (key r))
                                 (List.map (set to_numeric) (rows df))))).
Proof.
  unfold exclude_rule. fold (active name codes df).
  destruct (active name codes df).
  - intros (_ & _ & [= <- <-])%result_bind_Ok. right. auto.
  - intros [= <- <-]. left. auto.
Qed.

Lemma exclude_rule_columns df df1 n :
  exclude_rule name key set codes df = Ok (df1, n) ->
  columns df1 = columns df.
Proof.
  intros [(_ & -> & _)|(_ & -> & _)]%exclude_rule_inv; reflexivity.
Qed.

(** The count of the rule is the number of rows it removed. *)
Lemma exclude_rule_count df df1 n :
  exclude_rule name key set codes df = Ok (df1, n) ->
  n = Z.of_nat (length (rows df)) - Z.of_nat (length (rows df1)).
Proof.
  intros [(_ & -> & ->)|(_ & -> & ->)]%exclude_rule_inv; [lia|].
  simpl.
  pose proof (length_filter_split (fun r => isin codes (key r))
                (List.map (set to_numeric) (rows df))) as Hsplit.
  rewrite length_map in Hsplit. lia.
Qed.

Lemma exclude_rule_settles df df1 n :
  exclude_rule name key set codes df = Ok (df1, n) ->
  active name codes df = true -> Forall (settled key codes) (rows df1).
Proof.
  intros [(Hoff & _)|(_ & -> & _)]%exclude_rule_inv Hon; [congruence|].
  simpl. apply List.Forall_forall. intros r [Hr Hmask]%filter_In.
  apply in_map_iff in Hr as (r0 & <- & _).
  split.
  - rewrite key_set. apply to_numeric_idem.
  - now apply negb_true_iff in Hmask.
Qed.

Lemma map_settled (l : list RawRow) :
  Forall (settled key codes) l -> List.map (set to_numeric) l = l.
Proof.
  induction 1 as [|r l [Hr _] _ IH]; simpl; [reflexivity|].
  rewrite IH, set_same by exact Hr. reflexivity.
Qed.

(** On a table of settled rows the rule changes nothing and counts 0. *)
Lemma exclude_rule_settled df :
  Forall (settled key codes) (rows df) ->
  exclude_rule name key set codes df = Ok (df, 0).
Proof.
  intros Hall. unfold exclude_rule. destruct (_ && _); [|reflexivity].
  rewrite (map_settled _ Hall).
  rewrite (filter_none (fun r => isin codes (key r))), (filter_all _ (rows df)).
  - simpl. destruct df; reflexivity.
  - intros r Hr. apply negb_true_iff.
    now apply (proj1 (List.Forall_forall _ _) Hall).
  - intros r Hr. now apply (proj1 (List.Forall_forall _ _) Hall).
Qed.

(** The rule returns when the breakdown can be printed, and leaves a table
    whose breakdown can be printed. *)
Lemma exclude_rule_returns df :
  amounts_summable df = true ->
  exists df1 n, exclude_rule name key set codes df = Ok (df1, n)
                /\ amounts_summable df1 = true.
Proof.
  intros Hsum. unfold exclude_rule. destruct (_ && _); [|eauto].
  assert (Hsum1 : amounts_summable
            (mkDF (columns df) (List.map (set to_numeric) (rows df))) = true).
  { unfold amounts_summable in *. simpl.
    apply andb_true_iff in Hsum as [-> Hrows]. simpl.
    rewrite forallb_map_compose.
    eapply forallb_weaken; [|exact Hrows].
    intros r Hr. simpl. destruct (set_amounts to_numeric r) as [-> ->].
    exact Hr. }
  destruct (0 <? _); [rewrite breakdown_ok by exact Hsum1|]; simpl;
    (eexists _, _; split; [reflexivity|]);
    unfold amounts_summable in *; simpl in *;
    apply andb_true_iff in Hsum1 as [-> Hrows]; simpl;
    now apply forallb_filter.
Qed.

End Rule.

Lemma fuel_key_set f r : raw_fuel_mark (set_fuel_mark f r) = f (raw_fuel_mark r).
Proof. reflexivity. Qed.

Lemma fuel_set_same f r :
  f (raw_fuel_mark r) = raw_fuel_mark r -> set_fuel_mark f r = r.
Proof.
  destruct r; unfold set_fuel_mark; cbn. intros Hf. now rewrite Hf.
Qed.

Lemma azs_key_set f r :
  raw_azs_number (set_azs_number f r) = f (raw_azs_number r).
Proof. reflexivity. Qed.

Lemma azs_set_same f r :
  f (raw_azs_number r) = raw_azs_number r -> set_azs_number f r = r.
Proof.
  destruct r; unfold set_azs_number; cbn. intros Hf. now rewrite Hf.
Qed.

(** The rule on [azs_number] leaves the rows that the rule on [fuel_mark]
    settled as they are. *)
Lemma azs_rule_keeps_fuel_settled `{Platform} marks codes df df1 n :
  exclude_rule "azs_number" raw_azs_number set_azs_number codes df
  = Ok (df1, n) ->
  Forall (settled raw_fuel_mark marks) (rows df) ->
  Forall (settled raw_fuel_mark marks) (rows df1).
Proof.
  intros [(_ & -> & _)|(_ & -> & _)]%exclude_rule_inv Hall; [exact Hall|].
  simpl. apply List.Forall_forall. intros r [Hr _]%filter_In.
  apply in_map_iff in Hr as (r0 & <- & Hr0).
  apply (proj1 (List.Forall_forall _ _) Hall) in Hr0. exact Hr0.
Qed.

(** What [apply_filters] returns when filtering is on. *)
Lemma apply_filters_on_inv `{Platform} df config df' stats :
  ENABLE_FILTERING (FILTERS config) = true ->
  apply_filters df config = Ok (df', stats) ->
  exists df1 fuel azs,
    exclude_rule "fuel_mark" raw_fuel_mark set_fuel_mark
      (EXCLUDE_FUEL_MARKS (FILTERS config)) df = Ok (df1, fuel)
    /\ exclude_rule "azs_number" raw_azs_number set_azs_number
         (EXCLUDE_AZS (FILTERS config)) df1 = Ok (df', azs)
    /\ rows df <> []
    /\ stats = <["filtered_rows" :=
                   Z.of_nat (length (rows df)) - Z.of_nat (length (rows df'))]>
               (<["filtered_azs" := azs]>
                (<["filtered_fuel" := fuel]>
                 {[ "filtered_rows" := 0; "filtered_fuel" := 0;
                    "filtered_azs" := 0;
                    "initial_count" := Z.of_nat (length (rows df)) ]})).
Proof.
  intros Hon. unfold apply_filters. rewrite Hon. simpl.
  intros ([df1 fuel] & Hfuel & Hrest)%result_bind_Ok.
  apply result_bind_Ok in Hrest as ([df2 azs] & Hazs & Hrest).
  destruct (Z.of_nat (length (rows df)) =? 0) eqn:Hlen; simpl in Hrest;
    [discriminate|].
  injection Hrest as <- <-.
  exists df1, fuel, azs. repeat split; try assumption.
  intros Hnil. rewrite Hnil in Hlen. discriminate.
Qed.

(** C10: with filtering on, the statistics that [apply_filters] returns
    account for every removed row: [filtered_rows] is the sum of
    [filtered_fuel] and [filtered_azs], and it is [initial_count] (the row
    count of the input) minus the row count of the returned table. *)
Theorem C10_counts_account_for_removed_rows `{Platform}
    (df : DataFrame) (config : Config) (df' : DataFrame)
    (stats : gmap string Z) :
  ENABLE_FILTERING (FILTERS config) = true ->
  apply_filters df config = Ok (df', stats) ->
  exists filtered_rows filtered_fuel filtered_azs initial_count : Z,
    stats !! "filtered_rows" = Some filtered_rows
    /\ stats !! "filtered_fuel" = Some filtered_fuel
    /\ stats !! "filtered_azs" = Some filtered_azs
    /\ stats !! "initial_count" = Some initial_count
    /\ initial_count = Z.of_nat (length (rows df))
    /\ filtered_rows = filtered_fuel + filtered_azs
    /\ filtered_rows = initial_count - Z.of_nat (length (rows df')).
Proof.
  intros Hon Hret.
  destruct (apply_filters_on_inv _ _ _ _ Hon Hret)
    as (df1 & fuel & azs & Hfuel & Hazs & _ & ->).
  apply exclude_rule_count in Hfuel, Hazs.
  exists (Z.of_nat (length (rows df)) - Z.of_nat (length (rows df'))),
    fuel, azs, (Z.of_nat (length (rows df))).
  repeat split; try reflexivity. lia.
Qed.

Lemma C10_witness :
  exists filtered_rows filtered_fuel filtered_azs initial_count : Z,
    ({[ "filtered_rows" := 1; "filtered_fuel" := 1; "filtered_azs" := 0;
        "initial_count" := 2 ]} : gmap string Z) !! "filtered_rows"
    = Some filtered_rows
    /\ ({[ "filtered_rows" := 1; "filtered_fuel" := 1; "filtered_azs" := 0;
           "initial_count" := 2 ]} : gmap string Z) !! "filtered_fuel"
       = Some filtered_fuel
    /\ ({[ "filtered_rows" := 1; "filtered_fuel" := 1; "filtered_azs" := 0;
           "initial_count" := 2 ]} : gmap string Z) !! "filtered_azs"
       = Some filtered_azs
    /\ ({[ "filtered_rows" := 1; "filtered_fuel" := 1; "filtered_azs" := 0;
           "initial_count" := 2 ]} : gmap string Z) !! "initial_count"
       = Some initial_count
    /\ initial_count = Z.of_nat (length (rows two_marks))
    /\ filtered_rows = filtered_fuel + filtered_azs
    /\ filtered_rows
       = initial_count
         - Z.of_nat (length
             [sample_raw (CTime jan_15) (CNum 4) (CNum 0) (CNum 3) (CNum 15)]).
Proof.
  apply (@C10_counts_account_for_removed_rows plain_platform
           two_marks exclude_mark_14
           (mkDF all_columns
              [sample_raw (CTime jan_15) (CNum 4) (CNum 0) (CNum 3) (CNum 15)])).
  - reflexivity.
  - vm_compute. reflexivity.
Defined.

(** The filter engine returns on every table that has rows and whose
    amounts can be added up. *)
Lemma apply_filters_returns `{Platform} df config :
  ENABLE_FILTERING (FILTERS config) = true ->
  amounts_summable df = true -> rows df <> [] ->
  exists df' stats, apply_filters df config = Ok (df', stats).
Proof.
  intros Hon Hsum Hrows. unfold apply_filters. rewrite Hon. simpl.
  destruct (exclude_rule_returns "fuel_mark" raw_fuel_mark set_fuel_mark
              (EXCLUDE_FUEL_MARKS (FILTERS config))
              (fun f r => conj eq_refl eq_refl) df Hsum)
    as (df1 & fuel & -> & Hsum1).
  simpl.
  destruct (exclude_rule_returns "azs_number" raw_azs_number set_azs_number
              (EXCLUDE_AZS (FILTERS config))
              (fun f r => conj eq_refl eq_refl) df1 Hsum1)
    as (df2 & azs & -> & _).
  simpl.
  destruct (Z.of_nat (length (rows df)) =? 0) eqn:Hlen; simpl; [|eauto].
  destruct (rows df); [congruence|discriminate].
Qed.

(** On a table without rows the summary divides by the row count. *)
Lemma apply_filters_on_empty `{Platform} df config :
  ENABLE_FILTERING (FILTERS config) = true -> rows df = [] ->
  apply_filters df config = Raise ZeroDivisionError.
Proof.
  intros Hon Hrows. destruct df as [cols l]. simpl in Hrows. subst l.
  unfold apply_filters, exclude_rule. rewrite Hon. simpl.
  destruct (_ && _); simpl; destruct (_ && _); reflexivity.
Qed.

Lemma exclude_rule_inactive `{Platform} name key set codes df :
  active name codes df = false ->
  exclude_rule name key set codes df = Ok (df, 0).
Proof. unfold exclude_rule, active. intros ->. reflexivity. Qed.

(** A rule that ran on a table with the columns of [df'] has nothing left
    to do on [df'] once its rows are settled. *)
Lemma exclude_rule_again `{Platform} name key set codes df df' :
  (forall f r, f (key r) = key r -> set f r = r) ->
  columns df' = columns df ->
  (active name codes df = true -> Forall (settled key codes) (rows df')) ->
  exclude_rule name key set codes df' = Ok (df', 0).
Proof.
  intros Hset Hcols Hsettled.
  destruct (active name codes df) eqn:Hact.
  - apply exclude_rule_settled; auto.
  - apply exclude_rule_inactive. unfold active in *. now rewrite Hcols.
Qed.

(** Where the first pass leaves rows, a second pass with the same
    configuration returns the same table and removes nothing. *)
Lemma apply_filters_twice `{Platform} df config df1 stats1 :
  apply_filters df config = Ok (df1, stats1) -> rows df1 <> [] ->
  exists stats2, apply_filters df1 config = Ok (df1, stats2)
                 /\ stats2 !! "filtered_rows" = Some 0.
Proof.
  intros Hfirst Hrows.
  destruct (ENABLE_FILTERING (FILTERS config)) eqn:Hon.
  - destruct (apply_filters_on_inv _ _ _ _ Hon Hfirst)
      as (dfa & fuel & azs & Hfuel & Hazs & _ & _).
    pose proof (exclude_rule_columns _ _ _ _ _ _ _ Hfuel) as Hca.
    pose proof (exclude_rule_columns _ _ _ _ _ _ _ Hazs) as Hc1.
    unfold apply_filters. rewrite Hon. simpl.
    rewrite (exclude_rule_again _ _ _ _ df df1 fuel_set_same).
    + simpl.
      rewrite (exclude_rule_again _ _ _ _ dfa df1 azs_set_same).
      * simpl. destruct (Z.of_nat (length (rows df1)) =? 0) eqn:Hlen.
        { destruct (rows df1); [congruence|discriminate]. }
        simpl. eexists. split; [reflexivity|].
        rewrite lookup_insert_eq. f_equal. lia.
      * exact Hc1.
      * intros Hact. eapply exclude_rule_settles; eauto using azs_key_set.
    + congruence.
    + intros Hact. eapply azs_rule_keeps_fuel_settled; [exact Hazs|].
      eapply exclude_rule_settles; eauto using fuel_key_set.
  - unfold apply_filters in *. rewrite Hon in *. simpl in *.
    injection Hfirst as <- <-. eexists. split; [reflexivity|].
    reflexivity.
Qed.

(** C7 fails on the code where the first pass removes every row: the
    second pass, handed the empty table, divides by its row count in the
    summary of line 237 and raises instead of returning the table. *)
Theorem C7_second_pass_raises_on_emptied_table :
  exists (df1 : DataFrame) (stats : gmap string Z),
    @apply_filters plain_platform only_mark_14 exclude_mark_14
    = Ok (df1, stats)
    /\ rows df1 = []
    /\ @apply_filters plain_platform df1 exclude_mark_14
       = Raise ZeroDivisionError.
Proof.
  exists (mkDF all_columns []). eexists. split; [vm_compute; reflexivity|].
  split; reflexivity.
Qed.

(** C3, as the code has it: with filtering off, [apply_filters] returns
    the table it was given and a statistics dict of exactly the three
    keys [filtered_rows], [filtered_fuel] and [filtered_azs], each 0; the
    dict has no [initial_count]. *)
Theorem C3_disabled_returns_input `{Platform} (df : DataFrame)
    (config : Config) :
  ENABLE_FILTERING (FILTERS config) = false ->
  exists stats : gmap string Z,
    apply_filters df config = Ok (df, stats)
    /\ dom stats = {[ "filtered_rows"; "filtered_fuel"; "filtered_azs" ]}
    /\ map_Forall (fun _ v => v = 0) stats
    /\ stats !! "initial_count" = None.
Proof.
  intros Hoff. unfold apply_filters. rewrite Hoff. simpl.
  eexists. split; [reflexivity|]. split; [|split].
  - rewrite !dom_insert_L, dom_singleton_L. set_solver.
  - repeat (apply map_Forall_insert_2; [reflexivity|]).
    apply map_Forall_empty.
  - reflexivity.
Qed.

Lemma C3_witness :
  exists stats : gmap string Z,
    @apply_filters plain_platform two_marks filtering_off
    = Ok (two_marks, stats)
    /\ dom stats = {[ "filtered_rows"; "filtered_fuel"; "filtered_azs" ]}
    /\ map_Forall (fun _ v => v = 0) stats
    /\ stats !! "initial_count" = None.
Proof.
  apply (@C3_disabled_returns_input plain_platform two_marks filtering_off).
  reflexivity.
Defined.

(** C3 fails as stated: the dict returned with filtering off has no
    [initial_count], so it does not hold the row count of the input. *)
Lemma C3_counterexample :
  ~ exists stats : gmap string Z,
      @apply_filters plain_platform two_marks filtering_off
      = Ok (two_marks, stats)
      /\ stats !! "initial_count"
         = Some (Z.of_nat (length (rows two_marks))).
Proof.
  intros (stats & Hret & Hcount).
  unfold apply_filters in Hret. simpl in Hret.
  injection Hret as <-. discriminate Hcount.
Qed.

(** With filtering on and both exclusion lists empty, no rule applies:
    the table comes back as it was given, unless it has no rows. *)
Lemma apply_filters_empty_lists `{Platform} df dict :
  rows df <> [] ->
  exists stats,
    apply_filters df (mkConfig (mkFilters true [] []) dict) = Ok (df, stats).
Proof.
  intros Hrows. unfold apply_filters, exclude_rule. simpl.
  destruct (Z.of_nat (length (rows df)) =? 0) eqn:Hlen; simpl; [|eauto].
  destruct (rows df); [congruence|discriminate].
Qed.

(** ** The pipeline *)

(** C8: a run with filtering off and a run with filtering on and both
    exclusion lists empty produce the same report; on a table that has
    rows the two runs end the same way altogether. *)
Theorem C8_disabled_same_as_empty_lists `{Platform} (df : DataFrame)
    (marks azs : list Z) (dict dict' : list (Z * text)) :
  let off := mkConfig (mkFilters false marks azs) dict in
  let on := mkConfig (mkFilters true [] []) dict' in
  produced (Report.run df off) = produced (Report.run df on)
  /\ (rows df <> [] -> Report.run df off = Report.run df on).
Proof.
  intros off on.
  assert (Hrun : rows df <> [] -> Report.run df off = Report.run df on).
  { intros Hrows.
    destruct (apply_filters_empty_lists df dict' Hrows) as (stats & Hon).
    unfold Report.run, Report.load_and_process_data. fold on in Hon. rewrite Hon.
    unfold off, apply_filters. simpl.
    destruct (validate_and_clean_data df) as [[df_clean|]|e]; reflexivity. }
  split; [|exact Hrun].
  destruct (rows df) as [|r l] eqn:Hrows; [|now rewrite Hrun].
  unfold Report.run, Report.load_and_process_data.
  rewrite (apply_filters_on_empty df on eq_refl Hrows).
  unfold off, apply_filters, validate_and_clean_data. simpl.
  rewrite Hrows. simpl.
  destruct (negb _); [reflexivity|].
  pose proof (to_datetime_length []) as Hlen.
  destruct (to_datetime []); [reflexivity|discriminate].
Qed.

Lemma C8_witness :
  produced (@Report.run plain_platform two_marks
              (mkConfig (mkFilters false [14] []) []))
  = produced (@Report.run plain_platform two_marks
                (mkConfig (mkFilters true [] []) []))
  /\ (rows two_marks <> [] ->
      @Report.run plain_platform two_marks
        (mkConfig (mkFilters false [14] []) [])
      = @Report.run plain_platform two_marks
          (mkConfig (mkFilters true [] []) [])).
Proof.
  apply (@C8_disabled_same_as_empty_lists plain_platform two_marks
           [14] [] [] []).
Defined.

(** The run of the witness does produce a report: one January row. *)
Example run_two_marks :
  exists r, produced (@Report.run plain_platform two_marks filtering_off)
            = Some [r]
            /\ (bonus_accrued r == 14)%Q /\ (liters_total r == 8)%Q.
Proof. eexists. split; [vm_compute; reflexivity|]. split; reflexivity. Qed.

(** ** The cleaner *)

Lemma no_missing_cols (df : DataFrame) :
  required_cols ⊆ columns df ->
  List.filter (fun col => negb (bool_decide (col ∈ columns df))) required_cols
  = [].
Proof.
  intros Hreq. apply filter_none. intros col Hcol.
  apply negb_false_iff, bool_decide_eq_true_2, Hreq.
  now apply list_elem_of_In.
Qed.

(** A row is dropped exactly when its date could not be read. *)
Lemma clean_row_None `{Platform} (r : RawRow) (d : option Timestamp) :
  clean_row r d = None <-> d = None.
Proof. unfold clean_row. destruct d; split; congruence. Qed.

(** A row that is kept has its three amounts read as numbers, 0 where the
    cell holds no number. *)
Lemma clean_row_Some `{Platform} (r : RawRow) (d : option Timestamp)
    (c : CleanRow) :
  clean_row r d = Some c ->
  d = Some (date c)
  /\ bonus_plus c = fillna0 (to_numeric (raw_bonus_plus r))
  /\ bonus_minus c = fillna0 (to_numeric (raw_bonus_minus r))
  /\ liters c = fillna0 (to_numeric (raw_liters r))
  /\ period c = month_start (date c).
Proof.
  unfold clean_row. destruct d; [|discriminate].
  intros [= <-]. simpl. auto.
Qed.

Lemma cleaned_nil `{Platform} (l : list RawRow) dates :
  Forall (fun d => d = None) dates -> cleaned l dates = [].
Proof.
  intros Hnone. revert l.
  induction Hnone as [|d dates -> _ IH]; intros [|r l]; try reflexivity.
  unfold cleaned. simpl. apply IH.
Qed.

(** As many rows are kept as dates were read. *)
Lemma cleaned_length `{Platform} (l : list RawRow) dates :
  length dates = length l ->
  length (cleaned l dates)
  = length (List.filter (fun d => bool_decide (d <> None)) dates).
Proof.
  revert dates. induction l as [|r l IH]; intros [|d dates] Hlen;
    try discriminate; [reflexivity|].
  unfold cleaned. simpl. injection Hlen as Hlen.
  destruct d as [d|]; simpl; [f_equal|]; now apply IH.
Qed.

(** Where at least one date can be read, the cleaner returns the table of
    the rows whose date was read. *)
Lemma validate_and_clean_data_returns `{Platform} (df : DataFrame) :
  required_cols ⊆ columns df ->
  Exists (fun d => d <> None) (to_datetime (List.map raw_date (rows df))) ->
  validate_and_clean_data df
  = Ok (Some (cleaned (rows df) (to_datetime (List.map raw_date (rows df))))).
Proof.
  intros Hreq Hsome. unfold validate_and_clean_data.
  rewrite no_missing_cols by exact Hreq. simpl.
  fold (cleaned (rows df) (to_datetime (List.map raw_date (rows df)))).
  assert (Hlen : length (cleaned (rows df)
                           (to_datetime (List.map raw_date (rows df)))) <> 0%nat).
  { rewrite cleaned_length by now rewrite to_datetime_length, length_map.
    induction Hsome as [d dates Hd|d dates _ IH]; simpl.
    - rewrite bool_decide_eq_true_2 by exact Hd. discriminate.
    - destruct (bool_decide _); [discriminate|exact IH]. }
  destruct (cleaned _ _); [contradiction|reflexivity].
Qed.

(** C4 fails on the code where no date of the table can be read (and so
    on a table without rows): every row is dropped, the summary of line
    278 asks the [NaT] that the empty date column has for minimum to
    print itself, and the cleaner raises instead of returning a table. *)
Theorem C4_no_readable_date_raises `{Platform} (df : DataFrame) :
  required_cols ⊆ columns df ->
  Forall (fun d => d = None) (to_datetime (List.map raw_date (rows df))) ->
  validate_and_clean_data df = Raise ValueError.
Proof.
  intros Hreq Hnone. unfold validate_and_clean_data.
  rewrite no_missing_cols by exact Hreq. simpl.
  fold (cleaned (rows df) (to_datetime (List.map raw_date (rows df)))).
  rewrite cleaned_nil by exact Hnone. reflexivity.
Qed.

Lemma C4_witness :
  @validate_and_clean_data plain_platform one_bad_date = Raise ValueError.
Proof.
  apply (@C4_no_readable_date_raises plain_platform one_bad_date).
  - apply (bool_decide_unpack _). vm_compute. exact I.
  - repeat constructor.
Defined.

(** ** The sheet namer *)

Lemma split_from_word (m cur s : text) :
  forallb (fun c => negb (isspace c)) m = true ->
  split_from cur (m ++ s) = split_from (rev m ++ cur) s.
Proof.
  revert cur. induction m as [|c m IH]; intros cur Hm; [reflexivity|].
  simpl in Hm. apply andb_true_iff in Hm as [Hc Hm].
  apply negb_true_iff in Hc. simpl. rewrite Hc, IH by exact Hm.
  now rewrite <- app_assoc.
Qed.

(** A word followed by a blank is the first piece of the split. *)
Lemma split_word_blank (m s : text) :
  word m -> split (m ++ lit " " ++ s) = m :: split s.
Proof.
  intros [Hne Hm]. unfold split. rewrite split_from_word by exact Hm.
  rewrite app_nil_r. simpl.
  destruct (rev m) as [|c t] eqn:Hrev.
  - apply (f_equal (@rev N)) in Hrev. rewrite rev_involutive in Hrev.
    contradiction.
  - rewrite <- Hrev, rev_involutive. reflexivity.
Qed.

Lemma split_word (m : text) : word m -> split m = [m].
Proof.
  intros [Hne Hm]. unfold split.
  rewrite <- (app_nil_r m) at 1. rewrite split_from_word by exact Hm.
  rewrite app_nil_r. simpl.
  destruct (rev m) as [|c t] eqn:Hrev.
  - apply (f_equal (@rev N)) in Hrev. rewrite rev_involutive in Hrev.
    contradiction.
  - rewrite <- Hrev, rev_involutive. reflexivity.
Qed.

Lemma index_last {A} (l : list A) (x : A) :
  index (l ++ [x]) (length (l ++ [x]) - 1) = Ok x.
Proof.
  unfold index. rewrite length_app. simpl.
  replace (length l + 1 - 1)%nat with (length l) by lia.
  rewrite nth_error_app2, Nat.sub_diag by lia. reflexivity.
Qed.

(** The headers under which the namer of report.py looks for labels. *)
Lemma label_headers_uniform (hdr : text) (df_report : list ReportRow) :
  df_report <> [] ->
  Forall (fun r => label_col r = hdr) df_report ->
  forall c, c ∈ report_columns df_report <-> c ∈ hdr :: numeric_headers.
Proof.
  intros Hne Hall c. unfold report_columns.
  rewrite elem_of_app, elem_of_remove_dups, elem_of_cons.
  apply or_iff_compat_r.
  destruct df_report as [|r l]; [contradiction|].
  rewrite list_elem_of_In, in_map_iff. split.
  - intros (r' & <- & Hr').
    now apply (proj1 (List.Forall_forall _ _) Hall).
  - intros ->. exists r. split; [|now left].
    apply (proj1 (List.Forall_forall _ _) Hall). now left.
Qed.

(** On a report whose labels stand under one of the three headers it
    knows, the namer of report.py names the sheet after the first and the
    last label. *)
Lemma get_sheet_name_uniform (hdr : text) (df_report : list ReportRow) :
  hdr ∈ [col_Period; lit "period"; lit "index"] ->
  df_report <> [] ->
  Forall (fun r => label_col r = hdr) df_report ->
  Report.get_sheet_name_from_data df_report
  = (first_period ← index (List.map (fun r => Some (label r)) df_report) 0;
     last_period ← index (List.map (fun r => Some (label r)) df_report)
                     (length df_report - 1);
     sheet_name_of first_period last_period).
Proof.
  intros Hhdr Hne Hall. unfold Report.get_sheet_name_from_data.
  destruct df_report as [|r0 l0] eqn:Hdf; [contradiction|].
  rewrite <- Hdf in *. replace (length df_report =? 0)%nat with false
    by (rewrite Hdf; reflexivity).
  rewrite !(bool_decide_ext _ _ (label_headers_uniform hdr _ Hne Hall _)).
  assert (Hcol : label_column hdr df_report
                 = List.map (fun r => Some (label r)) df_report).
  { unfold label_column. apply map_ext_in. intros r Hr. unfold text_eqb.
    rewrite bool_decide_eq_true_2; [reflexivity|].
    now apply (proj1 (List.Forall_forall _ _) Hall). }
  rewrite !elem_of_cons, elem_of_nil in Hhdr.
  destruct Hhdr as [->|[->|[->|[]]]]; vm_compute bool_decide; cbv iota;
    rewrite Hcol, length_map; reflexivity.
Qed.

(** C6: on at least two period rows whose labels read "<month> <year>"
    and make "Отчет за <first> - <last>" longer than 31 characters, the
    namer of report.py returns the first three characters of the two
    months and the year of the last period, "<Mon1>-<Mon2> <Year>". *)
Theorem C6_long_label_abbreviated
    (hdr : text) (df_report : list ReportRow) (first_row last_row : ReportRow)
    (between : list ReportRow) (month1 rest1 month2 year2 : text) :
  hdr ∈ [col_Period; lit "period"; lit "index"] ->
  Forall (fun r => label_col r = hdr) df_report ->
  df_report = first_row :: between ++ [last_row] ->
  label first_row = month1 ++ lit " " ++ rest1 ->
  label last_row = month2 ++ lit " " ++ year2 ->
  word month1 -> word month2 -> word year2 ->
  (31 < length (s_report_for ++ label first_row ++ lit " - "
                ++ label last_row))%nat ->
  Report.get_sheet_name_from_data df_report
  = Ok (firstn 3 month1 ++ lit "-" ++ firstn 3 month2 ++ lit " " ++ year2).
Proof.
  intros Hhdr Hall Hdf Hl1 Hln Hm1 Hm2 Hy2 Hlong.
  rewrite (get_sheet_name_uniform hdr) by (subst; auto; discriminate).
  subst df_report. rewrite map_cons, map_app. simpl (List.map _ [_]).
  replace (length (first_row :: between ++ [last_row]) - 1)%nat
    with (length ((Some (label first_row)
                   :: List.map (fun r => Some (label r)) between)
                  ++ [Some (label last_row)]) - 1)%nat
    by (simpl; rewrite !length_app, length_map; reflexivity).
  rewrite app_comm_cons, index_last.
  unfold index at 1. simpl.
  unfold sheet_name_of. simpl fmt.
  apply Nat.ltb_lt in Hlong. rewrite Hlong. simpl.
  rewrite Hl1, Hln, !split_word_blank, split_word by assumption.
  reflexivity.
Qed.

(** The scenario of the specification: the report of the twenty-four
    months from January 2024 to December 2025 is named "Jan-Dec 2025". *)
Lemma C6_witness :
  Report.get_sheet_name_from_data
    (@Report.calculate_report plain_platform two_years)
  = Ok (lit "Jan-Dec 2025").
Proof.
  set (report := @Report.calculate_report plain_platform two_years).
  apply (C6_long_label_abbreviated col_Period report
           (List.hd (mkRow [] [] 0 0 0 0 0) report)
           (List.last report (mkRow [] [] 0 0 0 0 0))
           (removelast (List.tl report))
           (lit "January") (lit "2024") (lit "December") (lit "2025")).
  - apply (bool_decide_unpack _). vm_compute. exact I.
  - apply (bool_decide_unpack _). vm_compute. exact I.
  - vm_compute. reflexivity.
  - vm_compute. reflexivity.
  - vm_compute. reflexivity.
  - split; [discriminate|reflexivity].
  - split; [discriminate|reflexivity].
  - split; [discriminate|reflexivity].
  - vm_compute. lia.
Defined.






(** The same single January through report_final.py, where [strftime]
    keeps the name of the index: the period row has its label under
    "period", the namer reads "Период", and the name is built from the two
    missing cells. *)
Example report_final_single_january :
  ReportFinal.get_sheet_name_from_data
    (@ReportFinal.calculate_report plain_platform [sample_clean jan_15 10 0 5])
  = Ok (s_report_for ++ lit "nan - nan").
Proof. reflexivity. Qed.

(** The report of a table without accrual is named after its months. *)
Example no_accrual_sheet_name :
  Report.get_sheet_name_from_data
    (@Report.calculate_report plain_platform
       [sample_clean jan_15 0 (-2) 3; sample_clean feb_03 0 0 7])
  = Ok (lit "Jan-Feb 2024").
Proof. reflexivity. Qed.

(** ** Scenarios of the specification *)

(** Fuel mark 14 excluded, one row of that mark among two: the row is
    gone and [filtered_fuel] is 1. *)
Example exclude_mark_14_scenario :
  exists stats,
    @apply_filters plain_platform two_marks exclude_mark_14
    = Ok (mkDF all_columns
            [sample_raw (CTime jan_15) (CNum 4) (CNum 0) (CNum 3) (CNum 15)],
          stats)
    /\ stats !! "filtered_fuel" = Some 1.
Proof. eexists. split; [vm_compute; reflexivity|reflexivity]. Qed.

(** One row with a date that cannot be read beside one valid row: the
    cleaned table has exactly one row. *)
Example one_bad_date_scenario :
  exists c,
    @validate_and_clean_data plain_platform
      (mkDF all_columns
         [sample_raw (CStr (lit "soon")) (CNum 1) (CNum 0) (CNum 1) CNaN;
          sample_raw (CTime jan_15) (CStr (lit "n/a")) (CNum 0) (CNum 3) CNaN])
    = Ok (Some [c])
    /\ date c = jan_15 /\ bonus_plus c = 0%Q /\ liters c = 3%Q.
Proof. eexists. split; [vm_compute; reflexivity|]. repeat split. Qed.

(** A table whose [bonus_plus] column holds dates only: the cleaner takes
    the integer of each date for the amount. *)
Example date_amounts_scenario :
  exists c,
    @validate_and_clean_data plain_platform
      (mkDF all_columns
         [sample_raw (CDate (Some jan_15)) (CDate (Some jan_15)) (CNum 0)
                     (CNum 3) CNaN])
    = Ok (Some [c])
    /\ date c = jan_15 /\ bonus_plus c = 1705276800000000%Q
    /\ liters c = 3%Q.
Proof. eexists. split; [vm_compute; reflexivity|]. repeat split. Qed.

Example isspace_samples :
  List.map isspace [9; 13; 14; 27; 28; 32; 33; 160; 8192; 8203; 12288]%N
  = [true; true; false; false; true; true; false; true; true; false; true].
Proof. reflexivity. Qed.

Example split_samples :
  split (lit "  January   2024 ") = [lit "January"; lit "2024"]
  /\ split (lit "") = [] /\ strip (lit "  top up ") = lit "top up".
Proof. repeat split. Qed.

(** * Further properties of the code *)

(** ** The aggregator, row by row *)

Lemma Qpos_lt (x : Q) : Qpos x = true <-> (0 < x)%Q.
Proof.
  unfold Qpos. rewrite negb_true_iff. split.
  - intros Hle. apply Qnot_le_lt. intros Hx.
    apply Qle_bool_iff in Hx. congruence.
  - intros Hlt. destruct (Qle_bool x 0) eqn:Hle; [|reflexivity].
    apply Qle_bool_iff in Hle. exfalso. exact (Qlt_not_le _ _ Hlt Hle).
Qed.

Lemma Qsum_nonneg (l : list Q) :
  Forall (fun x => (0 <= x)%Q) l -> (0 <= Qsum l)%Q.
Proof.
  induction 1 as [|x l Hx _ IH]; simpl; [apply Qle_refl|].
  change 0%Q with (0 + 0)%Q. now apply Qplus_le_compat.
Qed.

Lemma Qsum_positive (l : list Q) :
  l <> [] -> Forall (fun x => (0 < x)%Q) l -> (0 < Qsum l)%Q.
Proof.
  intros Hne Hall. destruct Hall as [|x l Hx Hl]; [contradiction|].
  simpl. change 0%Q with (0 + 0)%Q. apply Qplus_lt_le_compat; [exact Hx|].
  apply Qsum_nonneg. eapply Forall_impl; [exact Hl|].
  intros y Hy. now apply Qlt_le_weak.
Qed.

(** What a period row holds, in terms of the rows of its period. *)
Lemma period_rows_In `{Platform} hdr (df : list CleanRow) (r : ReportRow) :
  In r (period_rows hdr df) ->
  exists k,
    k ∈ report_index (accruals df) df
    /\ label_col r = hdr
    /\ label r = strftime_BY k
    /\ bonus_accrued r = Qsum (List.map bonus_plus (group k (accruals df)))
    /\ liters_with_bonus r = Qsum (List.map liters (group k (accruals df)))
    /\ liters_total r = Qsum (List.map liters (group k df))
    /\ (0 <= bonus_redeemed r)%Q.
Proof.
  rewrite period_rows_eq. intros Hr.
  apply in_map_iff in Hr as (k & <- & Hk). apply list_elem_of_In in Hk.
  exists k. cbn [label_col label bonus_accrued liters_with_bonus
                 liters_total bonus_redeemed].
  repeat (split; [first [assumption|reflexivity]|]).
  destruct (List.filter (fun r => Qneg (bonus_minus r)) df) as [|n l] eqn:Hn;
    [apply Qle_refl|].
  rewrite <- Hn.
  generalize (groupby_sum bonus_minus
                (List.filter (fun r => Qneg (bonus_minus r)) df)).
  intros srs. induction srs as [|[k' v] srs IH]; simpl; [apply Qle_refl|].
  destruct (bool_decide (k' = k)); [apply Qabs_nonneg|exact IH].
Qed.


(** A table with rows has a report with rows. *)
Lemma period_rows_not_nil `{Platform} hdr (df : list CleanRow) :
  df <> [] -> period_rows hdr df <> [].
Proof.
  intros Hne. rewrite period_rows_eq. intros Hnil%map_eq_nil.
  apply Hne. exact (report_index_nil _ df Hnil).
Qed.

Lemma period_rows_accrued_positive `{Platform} hdr (df : list CleanRow) :
  accruals df <> [] ->
  Forall (fun r => (0 < bonus_accrued r)%Q) (period_rows hdr df).
Proof.
  intros Hne. apply List.Forall_forall. intros r Hr.
  apply period_rows_In in Hr as (k & Hk & _ & _ & -> & _).
  rewrite report_index_accruals, elem_of_group_keys in Hk by exact Hne.
  apply list_elem_of_In, in_map_iff in Hk as (r0 & Hp & Hr0).
  apply Qsum_positive.
  - assert (Hin : In r0 (group k (accruals df))).
    { apply filter_In. split; [exact Hr0|]. now apply bool_decide_eq_true_2. }
    intros Hnil. apply map_eq_nil in Hnil. rewrite Hnil in Hin.
    destruct Hin.
  - apply Forall_map, List.Forall_forall. intros c Hc.
    apply filter_In in Hc as [Hc _]. apply filter_In in Hc as [_ Hc].
    now apply Qpos_lt.
Qed.

Lemma period_rows_no_accrual `{Platform} hdr (df : list CleanRow) :
  accruals df = [] ->
  Forall (fun r => bonus_accrued r = 0%Q /\ liters_with_bonus r = 0%Q
                   /\ rate_per_liter r = 0%Q)
         (period_rows hdr df).
Proof.
  intros Hnil. rewrite period_rows_eq, Hnil.
  apply List.Forall_forall. intros r Hr.
  apply in_map_iff in Hr as (k & <- & _). repeat split.
Qed.

(** X2. The accruals of a period row tell whether its table has any: in
    a table with at least one row of positive [bonus_plus] every period
    row of either script has a strictly positive [bonus_accrued]; in a
    table without any, every period row has 0 for [bonus_accrued], for
    [liters_with_bonus] and for [rate_per_liter]. *)
Theorem X2_bonus_accrued_sign `{Platform} (df : list CleanRow) :
  (accruals df <> [] ->
   Forall (fun r => (0 < bonus_accrued r)%Q) (Report.calculate_report df)
   /\ Forall (fun r => (0 < bonus_accrued r)%Q)
             (removelast (ReportFinal.calculate_report df)))
  /\ (accruals df = [] ->
      Forall (fun r => bonus_accrued r = 0%Q /\ liters_with_bonus r = 0%Q
                       /\ rate_per_liter r = 0%Q)
             (Report.calculate_report df)
      /\ Forall (fun r => bonus_accrued r = 0%Q /\ liters_with_bonus r = 0%Q
                          /\ rate_per_liter r = 0%Q)
                (removelast (ReportFinal.calculate_report df))).
Proof.
  unfold ReportFinal.calculate_report, Report.calculate_report.
  rewrite removelast_last. split; intros Hacc.
  - split; now apply period_rows_accrued_positive.
  - split; now apply period_rows_no_accrual.
Qed.

Lemma X2_witness :
  Forall (fun r => (0 < bonus_accrued r)%Q)
         (@Report.calculate_report plain_platform
            [sample_clean jan_15 10 0 5; sample_clean feb_03 0 (-2) 3])
  /\ Forall (fun r => bonus_accrued r = 0%Q /\ liters_with_bonus r = 0%Q
                      /\ rate_per_liter r = 0%Q)
            (@Report.calculate_report plain_platform
               [sample_clean jan_15 0 (-2) 3; sample_clean feb_03 0 0 7]).
Proof.
  split.
  - apply (proj1 (@X2_bonus_accrued_sign plain_platform
                    [sample_clean jan_15 10 0 5; sample_clean feb_03 0 (-2) 3])).
    vm_compute. discriminate.
  - apply (proj2 (@X2_bonus_accrued_sign plain_platform
                    [sample_clean jan_15 0 (-2) 3; sample_clean feb_03 0 0 7])).
    reflexivity.
Defined.

(** Every row with an accrual has its period in the index. *)
Lemma accruals_in_index (df : list CleanRow) :
  List.filter (fun r => bool_decide (period r ∈ report_index (accruals df) df))
              (accruals df)
  = accruals df.
Proof.
  apply filter_all. intros r Hr. apply bool_decide_eq_true_2.
  rewrite report_index_accruals by (intros Hnil; rewrite Hnil in Hr; destruct Hr).
  apply elem_of_group_keys, list_elem_of_In, in_map. exact Hr.
Qed.

Lemma accrued_period_rows `{Platform} hdr (df : list CleanRow) :
  (Qsum (List.map bonus_accrued (period_rows hdr df))
   == Qsum (List.map bonus_plus (accruals df)))%Q
  /\ (Qsum (List.map liters_with_bonus (period_rows hdr df))
      == Qsum (List.map liters (accruals df)))%Q.
Proof.
  rewrite period_rows_eq, !List.map_map. cbn [bonus_accrued liters_with_bonus].
  split.
  - rewrite (Qsum_groups bonus_plus) by apply NoDup_report_index.
    now rewrite accruals_in_index.
  - rewrite (Qsum_groups liters) by apply NoDup_report_index.
    now rewrite accruals_in_index.
Qed.

(** X3. Nothing accrued is lost: the [bonus_accrued] of the period rows
    add up to the [bonus_plus] of all the rows with a positive
    [bonus_plus], and their [liters_with_bonus] to the [liters] of those
    rows; both are 0 in a table without such a row. *)
Theorem X3_accruals_add_up `{Platform} (df : list CleanRow) :
  (Qsum (List.map bonus_accrued (Report.calculate_report df))
   == Qsum (List.map bonus_plus (accruals df)))%Q
  /\ (Qsum (List.map liters_with_bonus (Report.calculate_report df))
      == Qsum (List.map liters (accruals df)))%Q.
Proof. apply accrued_period_rows. Qed.

(** ** The order of the periods *)










Example no_accrual_labels :
  List.map label
    (@Report.calculate_report plain_platform
       [sample_clean feb_03 0 0 7; sample_clean jan_15 0 (-2) 3])
  = [lit "January 2024"; lit "February 2024"].
Proof. reflexivity. Qed.

(** ** Liters and redemptions of one period *)











(** ** The cleaner, on the tables it returns *)

Lemma validate_and_clean_data_inv `{Platform} (df : DataFrame)
    (t : list CleanRow) :
  validate_and_clean_data df = Ok (Some t) ->
  required_cols ⊆ columns df
  /\ t = cleaned (rows df) (to_datetime (List.map raw_date (rows df)))
  /\ t <> [].
Proof.
  unfold validate_and_clean_data.
  fold (cleaned (rows df) (to_datetime (List.map raw_date (rows df)))).
  case_bool_decide as Hmissing; simpl; [|discriminate].
  intros Hret. split; [|].
  - intros col Hcol. apply list_elem_of_In in Hcol.
    destruct (decide (col ∈ columns df)) as [Hin|Hout]; [exact Hin|].
    assert (Hf : In col (List.filter
                           (fun col => negb (bool_decide (col ∈ columns df)))
                           required_cols)).
    { apply filter_In. split; [exact Hcol|].
      now apply negb_true_iff, bool_decide_eq_false_2. }
    rewrite Hmissing in Hf. destruct Hf.
  - destruct (cleaned _ _) as [|c l]; [discriminate|].
    simpl in Hret. injection Hret as <-. split; [reflexivity|discriminate].
Qed.

Lemma cleaned_dates `{Platform} (l : list RawRow) dates :
  length dates = length l ->
  List.map date (cleaned l dates) = omap id dates.
Proof.
  revert dates. induction l as [|r l IH]; intros [|d dates] Hlen;
    try discriminate; [reflexivity|].
  unfold cleaned. simpl. injection Hlen as Hlen.
  destruct d as [d|]; simpl; [f_equal|]; now apply IH.
Qed.

Lemma cleaned_periods `{Platform} (l : list RawRow) dates :
  Forall (fun c => period c = month_start (date c)) (cleaned l dates).
Proof.
  revert dates. induction l as [|r l IH]; intros [|d dates];
    try (constructor; fail).
  unfold cleaned. simpl. destruct d as [d|]; simpl; [|apply IH].
  constructor; [reflexivity|apply IH].
Qed.

(** X8. The cleaner never returns a table without rows: whenever it
    returns a table, the table has at least one row and at most as many
    as the input, and the input had the five required columns. *)
Theorem X8_cleaned_table_not_empty `{Platform} (df : DataFrame)
    (t : list CleanRow) :
  validate_and_clean_data df = Ok (Some t) ->
  t <> [] /\ (length t <= length (rows df))%nat
  /\ required_cols ⊆ columns df.
Proof.
  intros (Hreq & -> & Hne)%validate_and_clean_data_inv.
  split; [exact Hne|]. split; [|exact Hreq].
  rewrite cleaned_length by now rewrite to_datetime_length, length_map.
  etransitivity; [apply List.filter_length_le|].
  now rewrite to_datetime_length, length_map.
Qed.

Lemma X8_witness :
  [mkClean jan_15 10 0 5 [] (month_start jan_15) CNaN (CNum 14)] <> []
  /\ (length [mkClean jan_15 10 0 5 [] (month_start jan_15) CNaN (CNum 14)] <= length (rows only_mark_14))%nat
  /\ required_cols ⊆ columns only_mark_14.
Proof.
  apply (@X8_cleaned_table_not_empty plain_platform only_mark_14).
  vm_compute. reflexivity.
Defined.

(** X4. A cleaned table with rows always has a report with rows, accruals
    or not; since the cleaner returns no table without rows, the report
    of a run is never empty, and [main] never stops at "Не удалось
    рассчитать отчет". *)
Theorem X4_report_not_empty `{Platform} :
  (forall t : list CleanRow, t <> [] -> Report.calculate_report t <> [])
  /\ (forall (df : DataFrame) (config : Config) (report : list ReportRow),
        Report.run df config = Ok (Some report) -> report <> []).
Proof.
  split.
  - intros t Ht. now apply period_rows_not_nil.
  - intros df config report. unfold Report.run, Report.load_and_process_data.
    destruct (apply_filters df config) as [[df_filtered stats]|e];
      simpl; [|discriminate].
    destruct (validate_and_clean_data df_filtered) as [[t|]|e] eqn:Hclean;
      simpl; try discriminate.
    intros [= <-]. apply validate_and_clean_data_inv in Hclean as (_ & _ & Ht).
    now apply period_rows_not_nil.
Qed.

Lemma X4_witness :
  @Report.calculate_report plain_platform
    [sample_clean jan_15 0 (-2) 3; sample_clean feb_03 0 0 7] <> []
  /\ (forall report,
        @Report.run plain_platform two_marks exclude_mark_14
        = Ok (Some report) -> report <> []).
Proof.
  split.
  - apply (proj1 (@X4_report_not_empty plain_platform)). discriminate.
  - apply (proj2 (@X4_report_not_empty plain_platform)).
Defined.

(** X9. The cleaned table holds, in the order of the input, exactly the
    dates that could be read, and the period of each of its rows is the
    first instant of the month of its date. *)
Theorem X9_cleaned_dates_and_periods `{Platform} (df : DataFrame)
    (t : list CleanRow) :
  validate_and_clean_data df = Ok (Some t) ->
  List.map date t = omap id (to_datetime (List.map raw_date (rows df)))
  /\ Forall (fun c => period c = month_start (date c)
                      /\ ts_day (period c) = 1 /\ ts_clock (period c) = 0) t.
Proof.
  intros (_ & -> & _)%validate_and_clean_data_inv. split.
  - apply cleaned_dates. now rewrite to_datetime_length, length_map.
  - eapply Forall_impl; [apply cleaned_periods|].
    intros c ->. repeat split.
Qed.

Lemma X9_witness :
  List.map date [mkClean jan_15 10 0 5 [] (month_start jan_15) CNaN (CNum 14)]
  = omap id (@to_datetime plain_platform
               (List.map raw_date (rows only_mark_14)))
  /\ Forall (fun c => period c = month_start (date c)
                      /\ ts_day (period c) = 1 /\ ts_clock (period c) = 0)
            [mkClean jan_15 10 0 5 [] (month_start jan_15) CNaN (CNum 14)].
Proof.
  apply (@X9_cleaned_dates_and_periods plain_platform only_mark_14).
  vm_compute. reflexivity.
Defined.

Lemma missing_column_returns_None `{Platform} (df : DataFrame) (col : string) :
  col ∈ required_cols -> col ∉ columns df ->
  validate_and_clean_data df = Ok None.
Proof.
  intros Hreq Hout. unfold validate_and_clean_data.
  case_bool_decide as Hmissing; simpl; [|reflexivity].
  assert (Hf : In col (List.filter
                         (fun col => negb (bool_decide (col ∈ columns df)))
                         required_cols)).
  { apply filter_In. split; [now apply list_elem_of_In|].
    now apply negb_true_iff, bool_decide_eq_false_2. }
  rewrite Hmissing in Hf. destruct Hf.
Qed.

(** X10. A missing required column is reported before anything else is
    looked at: the cleaner returns [None], and raises nothing, whatever
    the rows of the table are. *)
Theorem X10_missing_column_returns_None `{Platform} (df : DataFrame)
    (col : string) :
  col ∈ required_cols -> col ∉ columns df ->
  validate_and_clean_data df = Ok None.
Proof. apply missing_column_returns_None. Qed.

Lemma X10_witness :
  @validate_and_clean_data plain_platform
    (mkDF ["date"; "bonus_plus"; "bonus_minus"; "reason"] []) = Ok None.
Proof.
  apply (@X10_missing_column_returns_None plain_platform
           (mkDF ["date"; "bonus_plus"; "bonus_minus"; "reason"] []) "liters").
  - apply (bool_decide_unpack _). vm_compute. exact I.
  - apply (bool_decide_unpack _). vm_compute. exact I.
Defined.

(** ** The filter engine, on the rows it keeps *)

Lemma isin_cons (code : Z) (codes : list Z) (c : Cell) :
  isin (code :: codes) c = cell_eq_code code c || isin codes c.
Proof.
  unfold cell_eq_code. destruct c; simpl; try reflexivity.
  now rewrite orb_false_r.
Qed.

Lemma filter_map_swap {A B} (f : A -> B) (p : B -> bool) (l : list A) :
  List.filter p (List.map f l) = List.map f (List.filter (fun x => p (f x)) l).
Proof.
  induction l as [|x l IH]; simpl; [reflexivity|].
  destruct (p (f x)); simpl; now rewrite IH.
Qed.

Lemma filter_filter_and {A} (p q : A -> bool) (l : list A) :
  List.filter p (List.filter q l) = List.filter (fun x => q x && p x) l.
Proof.
  induction l as [|x l IH]; simpl; [reflexivity|].
  destruct (q x); simpl; [destruct (p x)|]; now rewrite IH.
Qed.

(** A rule that does not apply although its column is there has no
    codes, and so matches nothing. *)
Lemma isin_inactive (name : string) (codes : list Z) (df : DataFrame)
    (c : Cell) :
  active name codes df = false -> name ∈ columns df -> isin codes c = false.
Proof.
  unfold active. intros Hact Hin.
  rewrite (bool_decide_eq_true_2 _ Hin), andb_true_r in Hact.
  apply negb_false_iff, bool_decide_eq_true in Hact. subst codes.
  now destruct c.
Qed.

(** X11. With filtering on, no excluded code survives: the returned table
    has the columns of the input, none of its rows has a [fuel_mark] of
    the exclusion list if the table has that column, and none an
    [azs_number] of the exclusion list if it has that one. *)
Theorem X11_no_excluded_code_survives `{Platform} (df : DataFrame)
    (config : Config) (df' : DataFrame) (stats : gmap string Z) :
  ENABLE_FILTERING (FILTERS config) = true ->
  apply_filters df config = Ok (df', stats) ->
  columns df' = columns df
  /\ ("fuel_mark" ∈ columns df ->
      Forall (fun r => isin (EXCLUDE_FUEL_MARKS (FILTERS config))
                            (raw_fuel_mark r) = false) (rows df'))
  /\ ("azs_number" ∈ columns df ->
      Forall (fun r => isin (EXCLUDE_AZS (FILTERS config))
                            (raw_azs_number r) = false) (rows df')).
Proof.
  intros Hon Hret.
  destruct (apply_filters_on_inv _ _ _ _ Hon Hret)
    as (df1 & fuel & azs & Hfuel & Hazs & _ & _).
  pose proof (exclude_rule_columns _ _ _ _ _ _ _ Hfuel) as Hc1.
  pose proof (exclude_rule_columns _ _ _ _ _ _ _ Hazs) as Hc'.
  split; [congruence|]. split.
  - intros Hin.
    destruct (active "fuel_mark" (EXCLUDE_FUEL_MARKS (FILTERS config)) df)
      eqn:Hact.
    + eapply Forall_impl;
        [eapply azs_rule_keeps_fuel_settled; [exact Hazs|];
         eapply exclude_rule_settles; eauto using fuel_key_set|].
      intros r [_ Hr]. exact Hr.
    + apply List.Forall_forall. intros r _.
      now apply (isin_inactive "fuel_mark" _ df).
  - intros Hin. rewrite <- Hc1 in Hin.
    destruct (active "azs_number" (EXCLUDE_AZS (FILTERS config)) df1)
      eqn:Hact.
    + eapply Forall_impl;
        [eapply exclude_rule_settles; eauto using azs_key_set|].
      intros r [_ Hr]. exact Hr.
    + apply List.Forall_forall. intros r _.
      now apply (isin_inactive "azs_number" _ df1).
Qed.

Lemma X11_witness :
  columns (mkDF all_columns
             [mkRaw (CTime jan_15) (CNum 6) (CNum 0) (CNum 2) (CStr [])
                    (CNum 8) (CNum 15)])
  = columns three_sites
  /\ ("fuel_mark" ∈ columns three_sites ->
      Forall (fun r => isin [14] (raw_fuel_mark r) = false)
             [mkRaw (CTime jan_15) (CNum 6) (CNum 0) (CNum 2) (CStr [])
                    (CNum 8) (CNum 15)])
  /\ ("azs_number" ∈ columns three_sites ->
      Forall (fun r => isin [7] (raw_azs_number r) = false)
             [mkRaw (CTime jan_15) (CNum 6) (CNum 0) (CNum 2) (CStr [])
                    (CNum 8) (CNum 15)]).
Proof.
  apply (@X11_no_excluded_code_survives marks_platform three_sites
           exclude_14_and_site_7
           (mkDF all_columns
              [mkRaw (CTime jan_15) (CNum 6) (CNum 0) (CNum 2) (CStr [])
                     (CNum 8) (CNum 15)])
           {[ "filtered_rows" := 2; "filtered_fuel" := 1; "filtered_azs" := 1;
              "initial_count" := 3 ]}).
  - reflexivity.
  - vm_compute. reflexivity.
Defined.

Lemma length_filter_map {A B} (f : A -> B) (p : B -> bool) (l : list A) :
  length (List.filter p (List.map f l))
  = length (List.filter (fun x => p (f x)) l).
Proof. now rewrite filter_map_swap, length_map. Qed.

(** What the two rules together make of a table on which both apply. *)
Lemma apply_filters_both_rules `{Platform} df config df' stats :
  ENABLE_FILTERING (FILTERS config) = true ->
  active "fuel_mark" (EXCLUDE_FUEL_MARKS (FILTERS config)) df = true ->
  active "azs_number" (EXCLUDE_AZS (FILTERS config)) df = true ->
  apply_filters df config = Ok (df', stats) ->
  let marks := EXCLUDE_FUEL_MARKS (FILTERS config) in
  let sites := EXCLUDE_AZS (FILTERS config) in
  let coerced :=
    List.map (fun r => set_azs_number to_numeric (set_fuel_mark to_numeric r))
             (rows df) in
  rows df'
  = List.filter (fun r => negb (isin marks (raw_fuel_mark r))
                          && negb (isin sites (raw_azs_number r))) coerced
  /\ stats !! "filtered_fuel"
     = Some (Z.of_nat (length (List.filter
                                 (fun r => isin marks (raw_fuel_mark r))
                                 coerced)))
  /\ stats !! "filtered_azs"
     = Some (Z.of_nat (length (List.filter
                                 (fun r => negb (isin marks (raw_fuel_mark r))
                                           && isin sites (raw_azs_number r))
                                 coerced))).
Proof.
  intros Hon Hfa Haa Hret marks sites coerced.
  destruct (apply_filters_on_inv _ _ _ _ Hon Hret)
    as (df1 & fuel & azs & Hfuel & Hazs & _ & ->).
  pose proof (exclude_rule_columns _ _ _ _ _ _ _ Hfuel) as Hc1.
  destruct (exclude_rule_inv _ _ _ _ _ _ _ Hfuel)
    as [(Hoff & _)|(_ & -> & ->)]; [congruence|].
  destruct (exclude_rule_inv _ _ _ _ _ _ _ Hazs)
    as [(Hoff & _)|(_ & -> & ->)].
  { unfold active in *. simpl in Hoff. congruence. }
  clear Hfuel Hazs Hret. cbn [rows columns]. fold marks sites.
  assert (Hcoerced :
    List.map (set_azs_number to_numeric)
      (List.filter (fun r => negb (isin marks (raw_fuel_mark r)))
         (List.map (set_fuel_mark to_numeric) (rows df)))
    = List.filter (fun r => negb (isin marks (raw_fuel_mark r))) coerced).
  { unfold coerced. rewrite <- (List.map_map (set_fuel_mark to_numeric)
                                  (set_azs_number to_numeric)).
    now rewrite (filter_map_swap (set_azs_number to_numeric)). }
  rewrite Hcoerced. split; [|split].
  - apply filter_filter_and.
  - rewrite lookup_insert_ne, lookup_insert_ne, lookup_insert_eq by done.
    do 2 f_equal. unfold coerced.
    rewrite <- (List.map_map (set_fuel_mark to_numeric)
                  (set_azs_number to_numeric)).
    now rewrite (length_filter_map (set_azs_number to_numeric)).
  - rewrite lookup_insert_ne, lookup_insert_eq by done.
    now rewrite filter_filter_and.
Qed.

(** X12. Where both rules apply, narrowing by the fuel marks and then by
    the sites leaves the same table as one pass that drops every row
    matching either list: the rows of the input, their two code cells
    read as numbers, without those whose mark or site is excluded, in the
    order of the input. *)
Theorem X12_two_rules_as_one_pass `{Platform} (df : DataFrame)
    (config : Config) (df' : DataFrame) (stats : gmap string Z) :
  ENABLE_FILTERING (FILTERS config) = true ->
  active "fuel_mark" (EXCLUDE_FUEL_MARKS (FILTERS config)) df = true ->
  active "azs_number" (EXCLUDE_AZS (FILTERS config)) df = true ->
  apply_filters df config = Ok (df', stats) ->
  rows df'
  = List.filter
      (fun r => negb (isin (EXCLUDE_FUEL_MARKS (FILTERS config))
                           (raw_fuel_mark r))
                && negb (isin (EXCLUDE_AZS (FILTERS config))
                              (raw_azs_number r)))
      (List.map (fun r => set_azs_number to_numeric
                            (set_fuel_mark to_numeric r))
                (rows df)).
Proof.
  intros Hon Hfa Haa Hret.
  now destruct (apply_filters_both_rules _ _ _ _ Hon Hfa Haa Hret) as [Hrows _].
Qed.

Lemma X12_witness :
  rows (mkDF all_columns
          [mkRaw (CTime jan_15) (CNum 6) (CNum 0) (CNum 2) (CStr [])
                 (CNum 8) (CNum 15)])
  = List.filter
      (fun r => negb (isin [14] (raw_fuel_mark r))
                && negb (isin [7] (raw_azs_number r)))
      (List.map (fun r => set_azs_number (@to_numeric marks_platform)
                            (set_fuel_mark (@to_numeric marks_platform) r))
                (rows three_sites)).
Proof.
  apply (@X12_two_rules_as_one_pass marks_platform three_sites
           exclude_14_and_site_7
           (mkDF all_columns
              [mkRaw (CTime jan_15) (CNum 6) (CNum 0) (CNum 2) (CStr [])
                     (CNum 8) (CNum 15)])
           {[ "filtered_rows" := 2; "filtered_fuel" := 1; "filtered_azs" := 1;
              "initial_count" := 3 ]}).
  - reflexivity.
  - reflexivity.
  - reflexivity.
  - vm_compute. reflexivity.
Defined.

(** X13. Where both rules apply, a row is counted by the rule that
    removes it: [filtered_fuel] counts the rows with an excluded mark,
    and [filtered_azs] counts the rows with an excluded site among those
    whose mark is not excluded, so that a row matching both lists is
    counted under the fuel marks only. *)
Theorem X13_counts_by_rule `{Platform} (df : DataFrame)
    (config : Config) (df' : DataFrame) (stats : gmap string Z) :
  ENABLE_FILTERING (FILTERS config) = true ->
  active "fuel_mark" (EXCLUDE_FUEL_MARKS (FILTERS config)) df = true ->
  active "azs_number" (EXCLUDE_AZS (FILTERS config)) df = true ->
  apply_filters df config = Ok (df', stats) ->
  stats !! "filtered_fuel"
  = Some (Z.of_nat (length (List.filter
       (fun r => isin (EXCLUDE_FUEL_MARKS (FILTERS config))
                      (to_numeric (raw_fuel_mark r)))
       (rows df))))
  /\ stats !! "filtered_azs"
     = Some (Z.of_nat (length (List.filter
          (fun r => negb (isin (EXCLUDE_FUEL_MARKS (FILTERS config))
                               (to_numeric (raw_fuel_mark r)))
                    && isin (EXCLUDE_AZS (FILTERS config))
                            (to_numeric (raw_azs_number r)))
          (rows df)))).
Proof.
  intros Hon Hfa Haa Hret.
  destruct (apply_filters_both_rules _ _ _ _ Hon Hfa Haa Hret)
    as (_ & -> & ->).
  rewrite !length_filter_map. split; reflexivity.
Qed.

Lemma X13_witness :
  ({[ "filtered_rows" := 2; "filtered_fuel" := 1; "filtered_azs" := 1;
      "initial_count" := 3 ]} : gmap string Z) !! "filtered_fuel"
  = Some (Z.of_nat (length (List.filter
       (fun r => isin [14] (@to_numeric marks_platform (raw_fuel_mark r)))
       (rows three_sites))))
  /\ ({[ "filtered_rows" := 2; "filtered_fuel" := 1; "filtered_azs" := 1;
         "initial_count" := 3 ]} : gmap string Z) !! "filtered_azs"
     = Some (Z.of_nat (length (List.filter
          (fun r => negb (isin [14] (@to_numeric marks_platform
                                       (raw_fuel_mark r)))
                    && isin [7] (@to_numeric marks_platform
                                   (raw_azs_number r)))
          (rows three_sites)))).
Proof.
  apply (@X13_counts_by_rule marks_platform three_sites
           exclude_14_and_site_7
           (mkDF all_columns
              [mkRaw (CTime jan_15) (CNum 6) (CNum 0) (CNum 2) (CStr [])
                     (CNum 8) (CNum 15)])).
  - reflexivity.
  - reflexivity.
  - reflexivity.
  - vm_compute. reflexivity.
Defined.

(** ** The filter engine, where it raises *)

(** The breakdown of a table without [bonus_plus] fails on the first code
    that has a row. *)
Lemma breakdown_KeyError (df : DataFrame) (key : RawRow -> Cell)
    (codes : list Z) :
  "bonus_plus" ∉ columns df ->
  Exists (fun r => isin codes (key r) = true) (rows df) ->
  breakdown df key codes = Raise KeyError.
Proof.
  intros Hcol. induction codes as [|code codes IH]; intros Hhit.
  - apply List.Exists_exists in Hhit as (r & _ & Hr). now destruct (key r).
  - simpl.
    destruct (List.filter (fun r => cell_eq_code code (key r)) (rows df))
      as [|r0 l0] eqn:Hcode.
    + simpl. apply IH. apply List.Exists_exists in Hhit as (r & Hr & Hm).
      apply List.Exists_exists. exists r. split; [exact Hr|].
      rewrite isin_cons in Hm. apply orb_true_iff in Hm as [Hm|Hm];
        [|exact Hm].
      assert (Hin : In r (List.filter (fun r => cell_eq_code code (key r))
                            (rows df)))
        by (apply filter_In; split; [exact Hr|exact Hm]).
      rewrite Hcode in Hin. destruct Hin.
    + unfold column. cbn [columns rows length].
      rewrite (bool_decide_eq_false_2 ("bonus_plus" ∈ columns df))
        by exact Hcol.
      replace (0 <? Z.of_nat (S (length l0))) with true
        by (symmetry; apply Z.ltb_lt; lia).
      reflexivity.
Qed.

Lemma exclude_rule_KeyError `{Platform} name key set codes df :
  (forall f r, key (set f r) = f (key r)) ->
  name ∈ columns df -> "bonus_plus" ∉ columns df ->
  Exists (fun r => isin codes (to_numeric (key r)) = true) (rows df) ->
  exclude_rule name key set codes df = Raise KeyError.
Proof.
  intros Hkey Hname Hbonus Hhit. unfold exclude_rule.
  assert (Hcodes : codes <> []).
  { intros ->. apply List.Exists_exists in Hhit as (r & _ & Hr).
    now destruct (to_numeric (key r)). }
  rewrite (bool_decide_eq_false_2 _ Hcodes), (bool_decide_eq_true_2 _ Hname).
  cbn [negb andb rows columns].
  assert (Hhit1 : Exists (fun r => isin codes (key r) = true)
                         (List.map (set to_numeric) (rows df))).
  { apply List.Exists_exists in Hhit as (r & Hr & Hm).
    apply List.Exists_exists. exists (set to_numeric r).
    split; [now apply in_map|now rewrite Hkey]. }
  replace (0 <? _) with true.
  - rewrite breakdown_KeyError; [reflexivity|exact Hbonus|exact Hhit1].
  - symmetry. apply Z.ltb_lt.
    apply List.Exists_exists in Hhit1 as (r & Hr & Hm).
    assert (Hin : In r (List.filter (fun r => isin codes (key r))
                          (List.map (set to_numeric) (rows df))))
      by (apply filter_In; split; [exact Hr|exact Hm]).
    destruct (List.filter _ _); [destruct Hin|simpl; lia].
Qed.

(** X14. The filter runs before the columns are checked: on a table that
    has [fuel_mark] but no [bonus_plus], as soon as one row bears an
    excluded mark the filter engine raises [KeyError] while printing the
    breakdown, where the cleaner would have reported the missing column
    and returned [None]. *)
Theorem X14_breakdown_needs_bonus_plus `{Platform} (df : DataFrame)
    (config : Config) :
  ENABLE_FILTERING (FILTERS config) = true ->
  "fuel_mark" ∈ columns df -> "bonus_plus" ∉ columns df ->
  Exists (fun r => isin (EXCLUDE_FUEL_MARKS (FILTERS config))
                        (to_numeric (raw_fuel_mark r)) = true) (rows df) ->
  apply_filters df config = Raise KeyError
  /\ validate_and_clean_data df = Ok None.
Proof.
  intros Hon Hfuel Hbonus Hhit. split.
  - unfold apply_filters. rewrite Hon. cbn [negb].
    rewrite (exclude_rule_KeyError "fuel_mark" raw_fuel_mark set_fuel_mark);
      [reflexivity|exact fuel_key_set|exact Hfuel|exact Hbonus|exact Hhit].
  - apply (missing_column_returns_None df "bonus_plus"); [|exact Hbonus].
    apply (bool_decide_unpack _). vm_compute. exact I.
Qed.

Lemma X14_witness :
  @apply_filters plain_platform
    (mkDF ["date"; "liters"; "fuel_mark"]
       [sample_raw (CTime jan_15) CNaN CNaN (CNum 5) (CNum 14)])
    exclude_mark_14
  = Raise KeyError
  /\ @validate_and_clean_data plain_platform
       (mkDF ["date"; "liters"; "fuel_mark"]
          [sample_raw (CTime jan_15) CNaN CNaN (CNum 5) (CNum 14)])
     = Ok None.
Proof.
  apply (@X14_breakdown_needs_bonus_plus plain_platform
           (mkDF ["date"; "liters"; "fuel_mark"]
              [sample_raw (CTime jan_15) CNaN CNaN (CNum 5) (CNum 14)])
           exclude_mark_14).
  - reflexivity.
  - apply (bool_decide_unpack _). vm_compute. exact I.
  - apply (bool_decide_unpack _). vm_compute. exact I.
  - constructor. reflexivity.
Defined.

(** ** The pipeline from the loaded files *)

Lemma breakdown_raises (df : DataFrame) key codes (e : exn) :
  breakdown df key codes = Raise e -> e = KeyError \/ e = TypeError.
Proof.
  induction codes as [|code codes IH]; simpl; [discriminate|].
  destruct (0 <? _); simpl; [|exact IH].
  unfold column, sum_for_print. cbn [columns rows].
  repeat match goal with
         | |- context [if ?b then _ else _] => destruct b; simpl
         end;
    first [exact IH | intros [= <-]; auto].
Qed.

Lemma exclude_rule_raises `{Platform} name key set codes df (e : exn) :
  exclude_rule name key set codes df = Raise e ->
  e = KeyError \/ e = TypeError.
Proof.
  unfold exclude_rule. destruct (_ && _); [|discriminate].
  destruct (0 <? _); simpl; [|discriminate].
  destruct (breakdown _ _ _) as [[]|e'] eqn:Hb; simpl; [discriminate|].
  intros [= <-]. eapply breakdown_raises, Hb.
Qed.

(** The filter engine divides by zero on a table without rows only. *)
Lemma apply_filters_ZeroDivisionError `{Platform} df config :
  apply_filters df config = Raise ZeroDivisionError -> rows df = [].
Proof.
  unfold apply_filters. destruct (negb _); [discriminate|]. cbn zeta.
  destruct (exclude_rule "fuel_mark" _ _ _ _) as [[df1 fuel]|e1] eqn:H1; simpl.
  - destruct (exclude_rule "azs_number" _ _ _ _) as [[df2 azs]|e2] eqn:H2;
      simpl.
    + destruct (Z.of_nat (length (rows df)) =? 0) eqn:Hlen; simpl;
        [|discriminate].
      intros _. apply Z.eqb_eq in Hlen. destruct (rows df);
        [reflexivity|discriminate].
    + intros [= ->]. apply exclude_rule_raises in H2 as [?|?]; discriminate.
  - intros [= ->]. apply exclude_rule_raises in H1 as [?|?]; discriminate.
Qed.

Lemma validate_and_clean_data_raises `{Platform} df (e : exn) :
  validate_and_clean_data df = Raise e -> e = ValueError.
Proof.
  unfold validate_and_clean_data. destruct (negb _); [discriminate|].
  cbn zeta. destruct (date_min _); simpl; [|now intros [= <-]].
  destruct (date_max _); simpl; [discriminate|now intros [= <-]].
Qed.

Lemma concat_rows_not_nil (all_data : list DataFrame) :
  all_data <> [] -> Forall (fun df => empty df = false) all_data ->
  rows (concat all_data) <> [].
Proof.
  intros Hne Hall. destruct Hall as [|df l Hdf _]; [contradiction|].
  unfold concat. cbn [rows List.map List.concat].
  unfold empty in Hdf. apply orb_false_iff in Hdf as [Hrows _].
  apply bool_decide_eq_false in Hrows.
  destruct (rows df) as [|r rs]; [contradiction|discriminate].
Qed.

(** X15. In the pipeline the summary of the filter engine never divides
    by zero: [load_and_process_data] hands [apply_filters] the files that
    could be read and are not empty, or stops before when there is none,
    so whatever the files hold it does not raise [ZeroDivisionError]. *)
Theorem X15_pipeline_never_divides_by_zero `{Platform}
    (loaded : list (option DataFrame)) (config : Config) :
  load_and_process_files loaded config <> Raise ZeroDivisionError.
Proof.
  unfold load_and_process_files.
  set (all_data := List.filter (fun df_temp => negb (empty df_temp))
                               (omap id loaded)).
  case_bool_decide as Hnil; [discriminate|].
  unfold Report.load_and_process_data.
  destruct (apply_filters (concat all_data) config) as [[df_f st]|e] eqn:Hf;
    simpl.
  - destruct (validate_and_clean_data df_f) as [c|e] eqn:Hv; simpl;
      [discriminate|].
    intros [= ->]. apply validate_and_clean_data_raises in Hv. discriminate.
  - intros [= ->]. apply apply_filters_ZeroDivisionError in Hf.
    revert Hf. apply concat_rows_not_nil; [exact Hnil|].
    apply List.Forall_forall. intros df Hdf.
    apply filter_In in Hdf as [_ Hdf]. now apply negb_true_iff.
Qed.

(** ** The sheet namer, on whole reports *)

Lemma index_map_first {A B} (f : A -> B) (l : list A) (d : A) :
  l <> [] -> index (List.map f l) 0 = Ok (f (List.hd d l)).
Proof. destruct l; [contradiction|reflexivity]. Qed.

Lemma index_map_last {A B} (f : A -> B) (l : list A) (d : A) :
  l <> [] -> index (List.map f l) (length l - 1) = Ok (f (List.last l d)).
Proof.
  intros Hne. rewrite (app_removelast_last d Hne) at 1 2.
  rewrite map_app. simpl (List.map f [_]).
  replace (length (removelast l ++ [List.last l d]) - 1)%nat
    with (length (List.map f (removelast l) ++ [f (List.last l d)]) - 1)%nat
    by (rewrite !length_app, length_map; reflexivity).
  apply index_last.
Qed.

(** The name of a report whose labels stand under a header the namer
    knows. *)
Lemma get_sheet_name_first_last (hdr : text) (df_report : list ReportRow)
    (d : ReportRow) :
  hdr ∈ [col_Period; lit "period"; lit "index"] ->
  df_report <> [] ->
  Forall (fun r => label_col r = hdr) df_report ->
  Report.get_sheet_name_from_data df_report
  = sheet_name_of (Some (label (List.hd d df_report)))
                  (Some (label (List.last df_report d))).
Proof.
  intros Hhdr Hne Hall. rewrite (get_sheet_name_uniform hdr) by assumption.
  rewrite (index_map_first _ _ d), (index_map_last _ _ d) by exact Hne.
  reflexivity.
Qed.

(** A name made of two "<month> <year>" labels fits in 31 characters as
    long as the year of the last one has at most 23. *)
Lemma sheet_name_of_fits (month1 rest1 month2 year2 : text) :
  word month1 -> word month2 -> word year2 -> (length year2 <= 23)%nat ->
  exists name,
    sheet_name_of (Some (month1 ++ lit " " ++ rest1))
                  (Some (month2 ++ lit " " ++ year2)) = Ok name
    /\ (length name <= 31)%nat.
Proof.
  intros Hm1 Hm2 Hy2 Hlen. unfold sheet_name_of. cbn [fmt].
  destruct (31 <? _)%nat eqn:Hlong.
  - cbn [cell_split]. rewrite !split_word_blank, split_word by assumption.
    simpl. eexists. split; [reflexivity|].
    repeat (rewrite length_app; cbn [length]).
    pose proof (firstn_le_length 3 month1).
    pose proof (firstn_le_length 3 month2).
    lia.
  - eexists. split; [reflexivity|]. apply Nat.ltb_ge in Hlong. exact Hlong.
Qed.

(** The years a [Timestamp] of pandas can bear print as four digits. *)
Lemma str_of_Z_year (y : Z) :
  1677 <= y <= 2262 -> word (str_of_Z y) /\ length (str_of_Z y) = 4%nat.
Proof.
  intros Hy.
  assert (Hall : forallb
            (fun y => bool_decide (str_of_Z y <> [])
                      && forallb (fun c => negb (isspace c)) (str_of_Z y)
                      && (length (str_of_Z y) =? 4)%nat)
            (seqZ 1677 586) = true) by (vm_compute; reflexivity).
  rewrite forallb_forall in Hall.
  assert (Hin : In y (seqZ 1677 586)).
  { apply list_elem_of_In, elem_of_seqZ. lia. }
  apply Hall in Hin.
  apply andb_true_iff in Hin as [[Hne Hword]%andb_true_iff Hlen].
  apply bool_decide_eq_true in Hne. apply Nat.eqb_eq in Hlen.
  repeat split; assumption.
Qed.

(** X16. The name of the sheet always fits the 31 characters a sheet name
    may have: for every report report.py computes from rows dated within
    the years pandas can represent, under a locale whose month names are
    single words, the namer returns a name, of at most 31 characters. *)
Theorem X16_sheet_name_fits `{Platform} (df : list CleanRow) :
  reset_index_header ∈ [lit "period"; lit "index"] ->
  (forall m, 1 <= m <= 12 -> word (month_name m)) ->
  Forall (fun r => 1677 <= ts_year (period r) <= 2262
                   /\ 1 <= ts_month (period r) <= 12) df ->
  exists name,
    Report.get_sheet_name_from_data (Report.calculate_report df) = Ok name
    /\ (length name <= 31)%nat.
Proof.
  intros Hhdr Hmonths Hyears.
  destruct (Report.calculate_report df) as [|r0 l0] eqn:Hrep.
  { exists s_report. split; [reflexivity|]. simpl. lia. }
  assert (Hrow : forall r, In r (Report.calculate_report df) ->
            label_col r
            = rename_column (lit "period") col_Period reset_index_header
            /\ exists k, label r = month_name (ts_month k) ++ lit " "
                                   ++ str_of_Z (ts_year k)
                         /\ 1677 <= ts_year k <= 2262
                         /\ 1 <= ts_month k <= 12).
  { intros r Hr. unfold Report.calculate_report in Hr.
    apply period_rows_In in Hr as (k & Hk & Hcol & Hl & _).
    split; [exact Hcol|]. exists k. split; [exact Hl|].
    apply report_index_periods, list_elem_of_In, in_map_iff in Hk
      as (c & <- & Hc).
    now apply (proj1 (List.Forall_forall _ _) Hyears). }
  rewrite <- Hrep in *.
  assert (Hne : Report.calculate_report df <> []) by (rewrite Hrep; discriminate).
  rewrite (get_sheet_name_first_last
             (rename_column (lit "period") col_Period reset_index_header)
             _ r0).
  - destruct (Hrow (List.hd r0 (Report.calculate_report df)))
      as (_ & k1 & -> & Hk1 & Hm1).
    { rewrite Hrep. now left. }
    destruct (Hrow (List.last (Report.calculate_report df) r0))
      as (_ & k2 & -> & Hk2 & Hm2).
    { rewrite (app_removelast_last r0 Hne) at 2.
      apply in_or_app. right. now left. }
    destruct (str_of_Z_year _ Hk2) as [Hw2 Hl2].
    apply sheet_name_of_fits; auto. lia.
  - rewrite !elem_of_cons, elem_of_nil in Hhdr.
    destruct Hhdr as [->|[->|[]]]; apply (bool_decide_unpack _);
      vm_compute; exact I.
  - exact Hne.
  - apply List.Forall_forall. intros r Hr. now apply Hrow.
Qed.

Lemma english_month_word (m : Z) : 1 <= m <= 12 -> word (english_month m).
Proof.
  intros Hm.
  assert (Hall : forallb
            (fun m => bool_decide (english_month m <> [])
                      && forallb (fun c => negb (isspace c)) (english_month m))
            (seqZ 1 12) = true) by (vm_compute; reflexivity).
  rewrite forallb_forall in Hall.
  assert (Hin : In m (seqZ 1 12)).
  { apply list_elem_of_In, elem_of_seqZ. lia. }
  apply Hall in Hin. apply andb_true_iff in Hin as [Hne Hword].
  apply bool_decide_eq_true in Hne. split; assumption.
Qed.

Lemma X16_witness :
  (exists name,
     Report.get_sheet_name_from_data
       (@Report.calculate_report plain_platform two_years) = Ok name
     /\ (length name <= 31)%nat)
  /\ (exists name,
        Report.get_sheet_name_from_data
          (@Report.calculate_report plain_platform
             [sample_clean jan_15 0 (-2) 3; sample_clean feb_03 0 0 7])
        = Ok name
        /\ (length name <= 31)%nat).
Proof.
  split.
  - apply (@X16_sheet_name_fits plain_platform two_years).
    + apply (bool_decide_unpack _). vm_compute. exact I.
    + exact english_month_word.
    + apply (bool_decide_unpack _). vm_compute. exact I.
  - apply (@X16_sheet_name_fits plain_platform
             [sample_clean jan_15 0 (-2) 3; sample_clean feb_03 0 0 7]).
    + apply (bool_decide_unpack _). vm_compute. exact I.
    + exact english_month_word.
    + repeat constructor; simpl; lia.
Defined.

(** X17. A report whose labels stand under none of the headers "Период",
    "period" and "index" gets the default name "Отчет", however many rows
    it has. *)
Theorem X17_unknown_header_default (df_report : list ReportRow) :
  Forall (fun r => label_col r ∉ [col_Period; lit "period"; lit "index"])
         df_report ->
  Report.get_sheet_name_from_data df_report = Ok s_report.
Proof.
  intros Hall. unfold Report.get_sheet_name_from_data.
  destruct (length df_report =? 0)%nat; [reflexivity|].
  assert (Hout : forall c, c ∈ [col_Period; lit "period"; lit "index"] ->
                           c ∉ report_columns df_report).
  { intros c Hc Hin. unfold report_columns in Hin.
    apply elem_of_app in Hin as [Hin|Hin].
    - apply elem_of_remove_dups, list_elem_of_In, in_map_iff in Hin
        as (r & <- & Hr).
      now apply (proj1 (List.Forall_forall _ _) Hall r Hr).
    - rewrite !elem_of_cons, elem_of_nil in Hc.
      destruct Hc as [->|[->|[->|[]]]]; revert Hin;
        apply (bool_decide_unpack _); vm_compute; exact I. }
  rewrite !bool_decide_eq_false_2; [reflexivity| | |];
    apply Hout; apply (bool_decide_unpack _); vm_compute; exact I.
Qed.

Lemma X17_witness :
  Report.get_sheet_name_from_data
    [mkRow (lit "month") (lit "January 2024") 10 5 5 0 2;
     mkRow (lit "month") (lit "December 2025") 10 5 5 0 2]
  = Ok s_report.
Proof.
  apply X17_unknown_header_default.
  apply (bool_decide_unpack _). vm_compute. exact I.
Defined.

(** The numbers of a period row do not depend on the header of its
    label. *)
Lemma period_rows_header `{Platform} (hdr1 hdr2 : text) (df : list CleanRow) :
  List.map label (period_rows hdr1 df) = List.map label (period_rows hdr2 df)
  /\ List.map bonus_accrued (period_rows hdr1 df)
     = List.map bonus_accrued (period_rows hdr2 df)
  /\ List.map liters_with_bonus (period_rows hdr1 df)
     = List.map liters_with_bonus (period_rows hdr2 df).
Proof. unfold period_rows. rewrite !List.map_map. repeat split. Qed.

Lemma period_rows_uniform `{Platform} (hdr : text) (df : list CleanRow) :
  Forall (fun r => label_col r = hdr) (period_rows hdr df).
Proof.
  apply List.Forall_forall. intros r Hr.
  now apply period_rows_In in Hr as (k & _ & Hcol & _).
Qed.

Lemma last_of_map {A B} (f : A -> B) (l : list A) (d : A) :
  List.last (List.map f l) (f d) = f (List.last l d).
Proof.
  induction l as [|a [|b l] IH]; try reflexivity. exact IH.
Qed.

(** The name the namer of report_final.py gives a report that ends with a
    total row, when it finds every label under "Период". *)
Lemma final_sheet_name_skips_total (report : list ReportRow)
    (total d : ReportRow) :
  report <> [] ->
  Forall (fun r => label_col r = col_Period) report ->
  label_col total = col_Period ->
  ReportFinal.get_sheet_name_from_data (report ++ [total])
  = sheet_name_of (Some (label (List.hd d report)))
                  (Some (label (List.last report d))).
Proof.
  intros Hne Hall Htotal. unfold ReportFinal.get_sheet_name_from_data.
  assert (Hlen : (length (report ++ [total]) <=? 1)%nat = false).
  { apply Nat.leb_gt. rewrite length_app. simpl.
    destruct report; [contradiction|simpl; lia]. }
  rewrite Hlen, bool_decide_eq_true_2.
  - assert (Hcol : label_column col_Period (report ++ [total])
                   = List.map (fun r => Some (label r)) report
                     ++ [Some (label total)]).
    { unfold label_column. rewrite map_app. f_equal.
      - apply map_ext_in. intros r Hr. unfold text_eqb.
        rewrite bool_decide_eq_true_2; [reflexivity|].
        now apply (proj1 (List.Forall_forall _ _) Hall).
      - simpl. unfold text_eqb. now rewrite bool_decide_eq_true_2. }
    rewrite Hcol.
    replace (index (List.map (fun r => Some (label r)) report
                    ++ [Some (label total)]) 0)
      with (index (List.map (fun r => Some (label r)) report) 0)
      by (destruct report; [contradiction|reflexivity]).
    rewrite (index_map_first _ _ d) by exact Hne. simpl.
    replace (index (List.map (fun r => Some (label r)) report
                    ++ [Some (label total)])
               (length (List.map (fun r => Some (label r)) report
                        ++ [Some (label total)]) - 2))
      with (index (List.map (fun r => Some (label r)) report)
              (length report - 1)).
    + rewrite (index_map_last _ _ d) by exact Hne. reflexivity.
    + unfold index. rewrite length_app, length_map. simpl.
      rewrite nth_error_app1.
      * replace (length report + 1 - 2)%nat with (length report - 1)%nat
          by lia.
        reflexivity.
      * rewrite length_map. destruct report; [contradiction|simpl; lia].
  - unfold report_columns. apply elem_of_app. left.
    apply elem_of_remove_dups, list_elem_of_In, in_map_iff.
    exists total. split; [exact Htotal|]. apply in_or_app. right. now left.
Qed.

(** X18. Where the formatted index has no name, so that both scripts find
    the labels under the header they rename, the two variants name the
    sheet alike: the namer of report_final.py, skipping the total row of
    its report, returns what the namer of report.py returns on the report
    without total row. *)
Theorem X18_variants_name_alike `{Platform} (df : list CleanRow) :
  reset_index_header = lit "index" ->
  ReportFinal.get_sheet_name_from_data (ReportFinal.calculate_report df)
  = Report.get_sheet_name_from_data (Report.calculate_report df).
Proof.
  intros Hhdr. unfold ReportFinal.calculate_report, Report.calculate_report.
  rewrite Hhdr.
  change (rename_column (lit "index") col_Period (lit "index"))
    with col_Period.
  change (rename_column (lit "period") col_Period (lit "index"))
    with (lit "index").
  destruct (period_rows_header col_Period (lit "index") df) as (Hlabels & _).
  destruct (period_rows col_Period df) as [|r0 l0] eqn:Hfinal.
  - destruct (period_rows (lit "index") df); [reflexivity|discriminate].
  - rewrite <- Hfinal in *.
    assert (Hne : period_rows col_Period df <> [])
      by (rewrite Hfinal; discriminate).
    assert (Hne' : period_rows (lit "index") df <> []).
    { intros Hnil. rewrite Hnil in Hlabels. apply map_eq_nil in Hlabels.
      contradiction. }
    rewrite (final_sheet_name_skips_total _ _ r0);
      [|exact Hne|apply period_rows_uniform|reflexivity].
    rewrite (get_sheet_name_first_last (lit "index") _ r0);
      [|apply (bool_decide_unpack _); vm_compute; exact I|exact Hne'
       |apply period_rows_uniform].
    assert (Hhd : forall l1 l2 : list ReportRow,
               List.map label l1 = List.map label l2 -> l1 <> [] ->
               label (List.hd r0 l1) = label (List.hd r0 l2)
               /\ label (List.last l1 r0) = label (List.last l2 r0)).
    { intros l1 l2 Hmap Hl1. split.
      - destruct l1 as [|a l1], l2 as [|b l2]; try discriminate;
          [contradiction|].
        now injection Hmap.
      - rewrite <- !(last_of_map label). now rewrite Hmap. }
    destruct (Hhd _ _ Hlabels Hne) as [-> ->]. reflexivity.
Qed.

Lemma X18_witness :
  ReportFinal.get_sheet_name_from_data
    (@ReportFinal.calculate_report index_platform two_years)
  = Report.get_sheet_name_from_data
      (@Report.calculate_report index_platform two_years)
  /\ ReportFinal.get_sheet_name_from_data
       (@ReportFinal.calculate_report index_platform
          [sample_clean jan_15 0 (-2) 3; sample_clean feb_03 0 0 7])
     = Report.get_sheet_name_from_data
         (@Report.calculate_report index_platform
            [sample_clean jan_15 0 (-2) 3; sample_clean feb_03 0 0 7]).
Proof.
  split.
  - apply (@X18_variants_name_alike index_platform two_years). reflexivity.
  - apply (@X18_variants_name_alike index_platform
             [sample_clean jan_15 0 (-2) 3; sample_clean feb_03 0 0 7]).
    reflexivity.
Defined.

Example final_names_two_years :
  ReportFinal.get_sheet_name_from_data
    (@ReportFinal.calculate_report index_platform two_years)
  = Ok (lit "Jan-Dec 2025").
Proof. vm_compute. reflexivity. Qed.

(** X19. Where [strftime] keeps the name of the index, report_final.py
    cannot name its sheet after the periods: its rename looks for
    "index", the period rows keep their labels under "period", and for
    every table with at least one accrual the namer, reading "Период",
    returns "Отчет за nan - nan". *)
Theorem X19_final_names_nan `{Platform} (df : list CleanRow) :
  reset_index_header = lit "period" ->
  accruals df <> [] ->
  ReportFinal.get_sheet_name_from_data (ReportFinal.calculate_report df)
  = Ok (s_report_for ++ lit "nan - nan").
Proof.
  intros Hhdr Hacc. unfold ReportFinal.calculate_report. rewrite Hhdr.
  change (rename_column (lit "index") col_Period (lit "period"))
    with (lit "period").
  set (report := period_rows (lit "period") df).
  set (total := mkRow col_Period ReportFinal.s_total _ _ _ _ _).
  assert (Hne : report <> []).
  { apply period_rows_not_nil. intros ->. now apply Hacc. }
  unfold ReportFinal.get_sheet_name_from_data.
  assert (Hlen : (length (report ++ [total]) <=? 1)%nat = false).
  { apply Nat.leb_gt. rewrite length_app. simpl.
    destruct report; [contradiction|simpl; lia]. }
  rewrite Hlen, bool_decide_eq_true_2.
  - assert (Hcol : label_column col_Period (report ++ [total])
                   = List.map (fun _ => None) report
                     ++ [Some ReportFinal.s_total]).
    { unfold label_column. rewrite map_app. f_equal.
      apply map_ext_in. intros r Hr.
      pose proof (proj1 (List.Forall_forall _ _)
                    (period_rows_uniform (lit "period") df) r Hr) as Hr'.
      simpl in Hr'. rewrite Hr'. reflexivity. }
    rewrite Hcol. unfold index.
    rewrite !length_app, !length_map. simpl (length [_]).
    rewrite !nth_error_app1
      by (rewrite length_map; destruct report; [contradiction|simpl; lia]).
    rewrite !nth_error_map.
    destruct (nth_error report 0) eqn:H0;
      [|apply nth_error_None in H0; destruct report;
        [contradiction|simpl in H0; lia]].
    destruct (nth_error report (length report + 1 - 2)) eqn:H1;
      [|apply nth_error_None in H1; destruct report;
        [contradiction|simpl in H1; lia]].
    reflexivity.
  - unfold report_columns. apply elem_of_app. left.
    apply elem_of_remove_dups, list_elem_of_In, in_map_iff.
    exists total. split; [reflexivity|]. apply in_or_app. right. now left.
Qed.

Lemma X19_witness :
  ReportFinal.get_sheet_name_from_data
    (@ReportFinal.calculate_report plain_platform two_years)
  = Ok (s_report_for ++ lit "nan - nan").
Proof.
  apply (@X19_final_names_nan plain_platform two_years).
  - reflexivity.
  - vm_compute. discriminate.
Defined.

(** ** The average that [main] prints *)

Lemma Qpos_nonzero (x : Q) : Qpos x = true -> Qnonzero x = true.
Proof.
  intros Hpos. apply Qpos_lt in Hpos. unfold Qnonzero.
  apply negb_true_iff. destruct (Qeq_bool x 0) eqn:Hz; [|reflexivity].
  apply Qeq_bool_iff in Hz. rewrite Hz in Hpos.
  exfalso. exact (Qlt_irrefl _ Hpos).
Qed.

(** X20. The two scripts agree on the overall rate: whenever [main] of
    report.py prints an average per liter, it is the [rate_per_liter]
    that report_final.py writes in its total row for the same cleaned
    table, and it is the total accrued over the total liters with bonus. *)
Theorem X20_average_is_total_rate `{Platform} (df : list CleanRow) (avg : Q) :
  average_rate (Report.calculate_report df) = Some avg ->
  rate_per_liter
    (List.last (ReportFinal.calculate_report df) (mkRow [] [] 0 0 0 0 0))
  = avg
  /\ (avg == Qsum (List.map bonus_plus (accruals df))
             / Qsum (List.map liters (accruals df)))%Q.
Proof.
  unfold average_rate. destruct (Qpos _) eqn:Hpos; [|discriminate].
  intros [= <-]. split.
  - unfold ReportFinal.calculate_report. rewrite last_last.
    cbn [rate_per_liter]. unfold Report.calculate_report in *.
    destruct (period_rows_header
                (rename_column (lit "period") col_Period reset_index_header)
                (rename_column (lit "index") col_Period reset_index_header) df)
      as (_ & Hacc & Hlit).
    rewrite <- Hacc, <- Hlit. now rewrite (Qpos_nonzero _ Hpos).
  - unfold Report.calculate_report.
    destruct (accrued_period_rows
                (rename_column (lit "period") col_Period reset_index_header) df)
      as [Hacc Hlit].
    now rewrite Hacc, Hlit.
Qed.

Lemma X20_witness :
  rate_per_liter
    (List.last (@ReportFinal.calculate_report plain_platform
                  [sample_clean jan_15 10 0 5; sample_clean feb_03 20 0 5])
               (mkRow [] [] 0 0 0 0 0))
  = ((10 + (20 + 0)) / (5 + (5 + 0)))%Q
  /\ ((10 + (20 + 0)) / (5 + (5 + 0))
      == Qsum (List.map bonus_plus
                 (accruals [sample_clean jan_15 10 0 5;
                            sample_clean feb_03 20 0 5]))
         / Qsum (List.map liters
                   (accruals [sample_clean jan_15 10 0 5;
                              sample_clean feb_03 20 0 5])))%Q.
Proof.
  apply (@X20_average_is_total_rate plain_platform
           [sample_clean jan_15 10 0 5; sample_clean feb_03 20 0 5]).
  reflexivity.
Defined.

(** ** Filtering, then aggregating *)

(** The aggregator reads the period and the amounts of a row, nothing
    else. *)
Lemma group_keys_amounts (l : list CleanRow) :
  List.map period (List.map amounts_of l) = List.map period l.
Proof. rewrite List.map_map. reflexivity. Qed.

Lemma group_amounts (k : Timestamp) (l : list CleanRow) :
  group k (List.map amounts_of l) = List.map amounts_of (group k l).
Proof. unfold group. now rewrite filter_map_swap. Qed.

Lemma groupby_sum_amounts (col : CleanRow -> Q) (l : list CleanRow) :
  (forall c, col (amounts_of c) = col c) ->
  groupby_sum col (List.map amounts_of l) = groupby_sum col l.
Proof.
  intros Hcol. unfold groupby_sum. rewrite group_keys_amounts.
  apply map_ext. intros k. rewrite group_amounts, List.map_map.
  f_equal. f_equal. apply map_ext. exact Hcol.
Qed.

Lemma period_rows_amounts `{Platform} hdr (l : list CleanRow) :
  period_rows hdr (List.map amounts_of l) = period_rows hdr l.
Proof.
  unfold period_rows, report_index.
  rewrite !(filter_map_swap amounts_of). cbn [bonus_plus bonus_minus amounts_of].
  rewrite !groupby_sum_amounts, !group_keys_amounts by reflexivity.
  assert (Hneg : forall A (x y : A) (l : list CleanRow),
             match List.map amounts_of l with [] => x | _ :: _ => y end
             = match l with [] => x | _ :: _ => y end)
    by (intros A x y [|c l']; reflexivity).
  apply map_ext. intros k. rewrite Hneg. reflexivity.
Qed.

Lemma cleaned_code_cells `{Platform} (f : RawRow -> RawRow)
    (l : list RawRow) (dates : list (option Timestamp)) :
  (forall r, raw_date (f r) = raw_date r
             /\ raw_bonus_plus (f r) = raw_bonus_plus r
             /\ raw_bonus_minus (f r) = raw_bonus_minus r
             /\ raw_liters (f r) = raw_liters r) ->
  List.map amounts_of (cleaned (List.map f l) dates)
  = List.map amounts_of (cleaned l dates)
  /\ List.map date (cleaned (List.map f l) dates)
     = List.map date (cleaned l dates).
Proof.
  intros Hf. revert dates.
  induction l as [|r l IH]; intros [|d dates]; try (split; reflexivity).
  destruct (IH dates) as [IHa IHd].
  unfold cleaned in *. simpl. destruct d as [d|]; simpl; [|now split].
  split; [|now f_equal]. f_equal; [|exact IHa].
  unfold amounts_of. simpl. destruct (Hf r) as (_ & -> & -> & ->).
  reflexivity.
Qed.

(** Two tables that differ in their code cells only are cleaned alike, as
    far as the aggregator can tell. *)
Lemma validate_code_cells `{Platform} (f : RawRow -> RawRow) (df : DataFrame) :
  (forall r, raw_date (f r) = raw_date r
             /\ raw_bonus_plus (f r) = raw_bonus_plus r
             /\ raw_bonus_minus (f r) = raw_bonus_minus r
             /\ raw_liters (f r) = raw_liters r) ->
  match validate_and_clean_data (mkDF (columns df) (List.map f (rows df))),
        validate_and_clean_data df with
  | Ok (Some t1), Ok (Some t2) =>
      List.map amounts_of t1 = List.map amounts_of t2
  | Ok None, Ok None => True
  | Raise e1, Raise e2 => e1 = e2
  | _, _ => False
  end.
Proof.
  intros Hf. unfold validate_and_clean_data. cbn [columns rows].
  destruct (negb _); [exact I|]. cbn zeta.
  rewrite List.map_map.
  rewrite (map_ext (fun r => raw_date (f r)) raw_date)
    by (intros r; apply Hf).
  generalize (to_datetime (List.map raw_date (rows df))). intros dates.
  fold (cleaned (List.map f (rows df)) dates). fold (cleaned (rows df) dates).
  destruct (cleaned_code_cells f (rows df) dates Hf) as [Hcore Hdates].
  rewrite Hdates.
  destruct (date_min _); simpl; [|reflexivity].
  destruct (date_max _); simpl; [exact Hcore|reflexivity].
Qed.

(** X21. Filtering and then aggregating gives the report of the rows that
    are kept: where both rules apply and the filter engine returns, the
    run produces what a run without filtering produces on the raw table
    without the rows whose mark or site, read as a number, is excluded;
    that the filter rewrites the two code columns changes nothing in the
    report. *)
Theorem X21_report_of_kept_rows `{Platform} (df : DataFrame) (config : Config)
    (df' : DataFrame) (stats : gmap string Z) (dict : list (Z * text)) :
  ENABLE_FILTERING (FILTERS config) = true ->
  active "fuel_mark" (EXCLUDE_FUEL_MARKS (FILTERS config)) df = true ->
  active "azs_number" (EXCLUDE_AZS (FILTERS config)) df = true ->
  apply_filters df config = Ok (df', stats) ->
  produced (Report.run df config)
  = produced (Report.run (mkDF (columns df)
                            (List.filter (kept config) (rows df)))
                         (mkConfig (mkFilters false [] []) dict)).
Proof.
  intros Hon Hfa Haa Hret.
  destruct (apply_filters_both_rules _ _ _ _ Hon Hfa Haa Hret) as (Hrows & _).
  cbn zeta in Hrows. rewrite filter_map_swap in Hrows.
  destruct (apply_filters_on_inv _ _ _ _ Hon Hret)
    as (df1 & fuel & azs & Hfuel & Hazs & _ & _).
  pose proof (exclude_rule_columns _ _ _ _ _ _ _ Hfuel) as Hc1.
  pose proof (exclude_rule_columns _ _ _ _ _ _ _ Hazs) as Hc'.
  unfold Report.run, Report.load_and_process_data. rewrite Hret.
  unfold apply_filters at 1. cbn [ENABLE_FILTERING FILTERS negb mbind
                                   result_bind].
  pose proof (validate_code_cells
                (fun r => set_azs_number to_numeric (set_fuel_mark to_numeric r))
                (mkDF (columns df) (List.filter (kept config) (rows df)))
                (fun r => conj eq_refl (conj eq_refl (conj eq_refl eq_refl))))
    as Hval.
  cbn [columns rows] in Hval.
  assert (Hdf' : df' = mkDF (columns df)
                   (List.map (fun r => set_azs_number to_numeric
                                         (set_fuel_mark to_numeric r))
                             (List.filter (kept config) (rows df)))).
  { destruct df' as [cols' rows']. simpl in *.
    f_equal; [congruence|exact Hrows]. }
  rewrite <- Hdf' in Hval.
  destruct (validate_and_clean_data df') as [[t1|]|e1];
    destruct (validate_and_clean_data (mkDF _ _)) as [[t2|]|e2];
    simpl; try contradiction; try reflexivity.
  unfold Report.calculate_report.
  rewrite <- (period_rows_amounts _ t1), <- (period_rows_amounts _ t2).
  now rewrite Hval.
Qed.

Lemma X21_witness :
  produced (@Report.run marks_platform three_sites exclude_14_and_site_7)
  = produced (@Report.run marks_platform
                (mkDF (columns three_sites)
                   (List.filter (@kept marks_platform exclude_14_and_site_7)
                                (rows three_sites)))
                (mkConfig (mkFilters false [] []) []))
  /\ (let no_accrual_kept :=
        mkDF all_columns
          [mkRaw (CTime jan_15) (CNum 10) (CNum 0) (CNum 5) (CStr []) (CNum 7)
                 (CStr (lit "14"));
           mkRaw (CTime feb_03) (CNum 0) (CNum (-2)) (CNum 2) (CStr []) (CNum 8)
                 (CStr (lit "15"))] in
      produced (@Report.run marks_platform no_accrual_kept
                  exclude_14_and_site_7)
      = produced (@Report.run marks_platform
                    (mkDF (columns no_accrual_kept)
                       (List.filter
                          (@kept marks_platform exclude_14_and_site_7)
                          (rows no_accrual_kept)))
                    (mkConfig (mkFilters false [] []) []))).
Proof.
  split.
  - apply (@X21_report_of_kept_rows marks_platform three_sites
             exclude_14_and_site_7
             (mkDF all_columns
                [mkRaw (CTime jan_15) (CNum 6) (CNum 0) (CNum 2) (CStr [])
                       (CNum 8) (CNum 15)])
             {[ "filtered_rows" := 2; "filtered_fuel" := 1; "filtered_azs" := 1;
                "initial_count" := 3 ]}).
    + reflexivity.
    + reflexivity.
    + reflexivity.
    + vm_compute. reflexivity.
  - intros no_accrual_kept.
    apply (@X21_report_of_kept_rows marks_platform no_accrual_kept
             exclude_14_and_site_7
             (mkDF all_columns
                [mkRaw (CTime feb_03) (CNum 0) (CNum (-2)) (CNum 2) (CStr [])
                       (CNum 8) (CNum 15)])
             {[ "filtered_rows" := 1; "filtered_fuel" := 1; "filtered_azs" := 0;
                "initial_count" := 2 ]}).
    + reflexivity.
    + reflexivity.
    + reflexivity.
    + vm_compute. reflexivity.
Defined.

Example no_accrual_kept_report :
  produced (@Report.run marks_platform
              (mkDF all_columns
                 [mkRaw (CTime jan_15) (CNum 10) (CNum 0) (CNum 5) (CStr [])
                        (CNum 7) (CStr (lit "14"));
                  mkRaw (CTime feb_03) (CNum 0) (CNum (-2)) (CNum 2) (CStr [])
                        (CNum 8) (CStr (lit "15"))])
              exclude_14_and_site_7)
  = Some [mkRow col_Period (lit "February 2024") 0 0 2 2 0].
Proof. vm_compute. reflexivity. Qed.

(** ** The reason of a cleaned row *)

Lemma lstrip_head (s : text) (c : N) :
  List.hd_error (lstrip s) = Some c -> isspace c = false.
Proof.
  induction s as [|x s IH]; simpl; [discriminate|].
  destruct (isspace x) eqn:Hx; [exact IH|].
  simpl. now intros [= <-].
Qed.

Lemma lstrip_suffix (s : text) : exists blanks, s = blanks ++ lstrip s.
Proof.
  induction s as [|x s [blanks IH]]; simpl; [now exists []|].
  destruct (isspace x).
  - exists (x :: blanks). simpl. now f_equal.
  - now exists [].
Qed.

Lemma hd_error_app {A} (l1 l2 : list A) (x : A) :
  List.hd_error l1 = Some x -> List.hd_error (l1 ++ l2) = Some x.
Proof. destruct l1; [discriminate|exact id]. Qed.

Lemma strip_trimmed (s : text) : trimmed (strip s).
Proof.
  unfold strip, trimmed. rewrite rev_involutive. split.
  - intros c Hc.
    destruct (lstrip_suffix (rev (lstrip s))) as [blanks Hrev].
    apply (f_equal (@rev N)) in Hrev.
    rewrite rev_involutive, rev_app_distr in Hrev.
    apply (lstrip_head s). rewrite Hrev. now apply hd_error_app.
  - apply lstrip_head.
Qed.

(** X22. The reason of every row of the cleaned table is trimmed: it
    neither begins nor ends with a blank. *)
Theorem X22_reason_trimmed `{Platform} (df : DataFrame) (t : list CleanRow) :
  validate_and_clean_data df = Ok (Some t) ->
  Forall (fun c => trimmed (reason c)) t.
Proof.
  intros (_ & -> & _)%validate_and_clean_data_inv.
  generalize (to_datetime (List.map raw_date (rows df))). intros dates.
  generalize (rows df). intros l. revert dates.
  induction l as [|r l IH]; intros [|d dates]; try (constructor; fail).
  unfold cleaned. simpl. destruct d as [d|]; simpl; [|apply IH].
  constructor; [apply strip_trimmed|apply IH].
Qed.

Lemma X22_witness :
  Forall (fun c => trimmed (reason c))
         [mkClean jan_15 10 0 5 (lit "top up") (month_start jan_15)
                  CNaN CNaN].
Proof.
  apply (@X22_reason_trimmed plain_platform
           (mkDF all_columns
              [mkRaw (CTime jan_15) (CNum 10) (CNum 0) (CNum 5)
                     (CStr (lit "  top up ")) CNaN CNaN])).
  vm_compute. reflexivity.
Defined.

(** ** The filter engine, again *)

(** X23. On a table that a first pass has left with rows, a second pass
    with the same configuration changes nothing: it returns the same
    table, and counts no row under either rule. *)
Theorem X23_second_pass_removes_nothing `{Platform} (df : DataFrame)
    (config : Config) (df1 : DataFrame) (stats1 : gmap string Z) :
  ENABLE_FILTERING (FILTERS config) = true ->
  apply_filters df config = Ok (df1, stats1) ->
  rows df1 <> [] ->
  exists stats2 : gmap string Z,
    apply_filters df1 config = Ok (df1, stats2)
    /\ stats2 !! "filtered_rows" = Some 0
    /\ stats2 !! "filtered_fuel" = Some 0
    /\ stats2 !! "filtered_azs" = Some 0
    /\ stats2 !! "initial_count" = Some (Z.of_nat (length (rows df1))).
Proof.
  intros Hon Hfirst Hrows.
  destruct (apply_filters_on_inv _ _ _ _ Hon Hfirst)
    as (dfa & fuel & azs & Hfuel & Hazs & _ & _).
  pose proof (exclude_rule_columns _ _ _ _ _ _ _ Hfuel) as Hca.
  pose proof (exclude_rule_columns _ _ _ _ _ _ _ Hazs) as Hc1.
  unfold apply_filters. rewrite Hon. simpl.
  rewrite (exclude_rule_again _ _ _ _ df df1 fuel_set_same).
  - simpl. rewrite (exclude_rule_again _ _ _ _ dfa df1 azs_set_same).
    + simpl. destruct (Z.of_nat (length (rows df1)) =? 0) eqn:Hlen.
      { destruct (rows df1); [congruence|discriminate]. }
      simpl. eexists. split; [reflexivity|].
      rewrite lookup_insert_eq. split; [f_equal; lia|].
      split; [|split]; reflexivity.
    + exact Hc1.
    + intros Hact. eapply exclude_rule_settles; eauto using azs_key_set.
  - congruence.
  - intros Hact. eapply azs_rule_keeps_fuel_settled; [exact Hazs|].
    eapply exclude_rule_settles; eauto using fuel_key_set.
Qed.

Lemma X23_witness :
  exists stats2 : gmap string Z,
    @apply_filters marks_platform
      (mkDF all_columns
         [mkRaw (CTime jan_15) (CNum 6) (CNum 0) (CNum 2) (CStr [])
                (CNum 8) (CNum 15)])
      exclude_14_and_site_7
    = Ok (mkDF all_columns
            [mkRaw (CTime jan_15) (CNum 6) (CNum 0) (CNum 2) (CStr [])
                   (CNum 8) (CNum 15)], stats2)
    /\ stats2 !! "filtered_rows" = Some 0
    /\ stats2 !! "filtered_fuel" = Some 0
    /\ stats2 !! "filtered_azs" = Some 0
    /\ stats2 !! "initial_count"
       = Some (Z.of_nat (length
            [mkRaw (CTime jan_15) (CNum 6) (CNum 0) (CNum 2) (CStr [])
                   (CNum 8) (CNum 15)])).
Proof.
  apply (@X23_second_pass_removes_nothing marks_platform three_sites
           exclude_14_and_site_7
           (mkDF all_columns
              [mkRaw (CTime jan_15) (CNum 6) (CNum 0) (CNum 2) (CStr [])
                     (CNum 8) (CNum 15)])
           {[ "filtered_rows" := 2; "filtered_fuel" := 1; "filtered_azs" := 1;
              "initial_count" := 3 ]}).
  - reflexivity.
  - vm_compute. reflexivity.
  - discriminate.
Defined.

(** X24. With filtering on, the filter engine returns on every table that
    has rows, has the columns [bonus_plus] and [liters], and holds only
    numbers and missing cells in them; the table it returns meets the
    same conditions, apart from having rows. *)
Theorem X24_filter_returns `{Platform} (df : DataFrame) (config : Config) :
  ENABLE_FILTERING (FILTERS config) = true ->
  amounts_summable df = true -> rows df <> [] ->
  exists (df' : DataFrame) (stats : gmap string Z),
    apply_filters df config = Ok (df', stats)
    /\ amounts_summable df' = true.
Proof.
  intros Hon Hsum Hrows. unfold apply_filters. rewrite Hon. simpl.
  destruct (exclude_rule_returns "fuel_mark" raw_fuel_mark set_fuel_mark
              (EXCLUDE_FUEL_MARKS (FILTERS config))
              (fun f r => conj eq_refl eq_refl) df Hsum)
    as (df1 & fuel & -> & Hsum1).
  simpl.
  destruct (exclude_rule_returns "azs_number" raw_azs_number set_azs_number
              (EXCLUDE_AZS (FILTERS config))
              (fun f r => conj eq_refl eq_refl) df1 Hsum1)
    as (df2 & azs & -> & Hsum2).
  simpl.
  destruct (Z.of_nat (length (rows df)) =? 0) eqn:Hlen; simpl; [|eauto].
  destruct (rows df); [congruence|discriminate].
Qed.

Lemma X24_witness :
  exists (df' : DataFrame) (stats : gmap string Z),
    @apply_filters marks_platform three_sites exclude_14_and_site_7
    = Ok (df', stats)
    /\ amounts_summable df' = true.
Proof.
  apply (@X24_filter_returns marks_platform three_sites
           exclude_14_and_site_7).
  - reflexivity.
  - reflexivity.
  - discriminate.
Defined.

(** The breakdown fails when a row of an excluded code has a text for
    [bonus_plus]. *)
Lemma breakdown_text (df : DataFrame) (key : RawRow -> Cell)
    (codes : list Z) :
  Exists (fun r => isin codes (key r) = true
                   /\ exists s, raw_bonus_plus r = CStr s) (rows df) ->
  exists e, breakdown df key codes = Raise e.
Proof.
  induction codes as [|code codes IH]; intros Hhit.
  - apply List.Exists_exists in Hhit as (r & _ & Hr & _).
    now destruct (key r).
  - apply List.Exists_exists in Hhit as (r & Hr & Hm & s & Hs).
    cbn [breakdown].
    set (hits := List.filter (fun r => cell_eq_code code (key r)) (rows df)).
    rewrite isin_cons in Hm.
    destruct (cell_eq_code code (key r)) eqn:Hcode.
    + assert (Hin : In r hits) by (apply filter_In; split; assumption).
      replace (0 <? Z.of_nat (length (rows (mkDF (columns df) hits))))
        with true
        by (symmetry; apply Z.ltb_lt; cbn [rows];
            destruct hits; [destruct Hin|simpl; lia]).
      unfold column. cbn [columns rows].
      destruct (bool_decide ("bonus_plus" ∈ columns df)); simpl;
        [|eexists; reflexivity].
      assert (Hsum : sum_for_print (List.map raw_bonus_plus hits)
                     = Raise TypeError).
      { unfold sum_for_print.
        destruct (forallb _ _) eqn:Hall; [|reflexivity].
        rewrite forallb_forall in Hall.
        specialize (Hall (raw_bonus_plus r) (in_map _ _ _ Hin)).
        rewrite Hs in Hall. discriminate. }
      rewrite Hsum. simpl. eexists. reflexivity.
    + simpl in Hm.
      match goal with
      | |- exists e, ?m ≫= _ = _ => destruct m as [[]|e']
      end; simpl; [|eexists; reflexivity].
      apply IH. apply List.Exists_exists. exists r. eauto.
Qed.

(** X25. The filter runs before the amounts are cleaned: on a table with
    a [fuel_mark] column, a single row that bears an excluded mark and
    has a text where [bonus_plus] should be makes the filter engine
    raise, while it prints the breakdown of the rows it is about to
    drop. *)
Theorem X25_text_amount_in_excluded_row `{Platform} (df : DataFrame)
    (config : Config) :
  ENABLE_FILTERING (FILTERS config) = true ->
  "fuel_mark" ∈ columns df ->
  Exists (fun r => isin (EXCLUDE_FUEL_MARKS (FILTERS config))
                        (to_numeric (raw_fuel_mark r)) = true
                   /\ exists s, raw_bonus_plus r = CStr s) (rows df) ->
  exists e : exn, apply_filters df config = Raise e.
Proof.
  intros Hon Hfuel Hhit. unfold apply_filters. rewrite Hon. cbn [negb].
  assert (Hrule : exists e,
             exclude_rule "fuel_mark" raw_fuel_mark set_fuel_mark
               (EXCLUDE_FUEL_MARKS (FILTERS config)) df = Raise e).
  { unfold exclude_rule.
    assert (Hcodes : EXCLUDE_FUEL_MARKS (FILTERS config) <> []).
    { intros Hnil. rewrite Hnil in Hhit.
      apply List.Exists_exists in Hhit as (r & _ & Hr & _).
      now destruct (to_numeric (raw_fuel_mark r)). }
    rewrite (bool_decide_eq_false_2 _ Hcodes),
            (bool_decide_eq_true_2 _ Hfuel).
    cbn [negb andb rows columns].
    assert (Hhit1 : Exists
              (fun r => isin (EXCLUDE_FUEL_MARKS (FILTERS config))
                             (raw_fuel_mark r) = true
                        /\ exists s, raw_bonus_plus r = CStr s)
              (List.map (set_fuel_mark to_numeric) (rows df))).
    { apply List.Exists_exists in Hhit as (r & Hr & Hm & Hs).
      apply List.Exists_exists. exists (set_fuel_mark to_numeric r).
      split; [now apply in_map|]. split; [exact Hm|exact Hs]. }
    replace (0 <? _) with true.
    - destruct (breakdown_text
                  (mkDF (columns df)
                     (List.map (set_fuel_mark to_numeric) (rows df)))
                  raw_fuel_mark (EXCLUDE_FUEL_MARKS (FILTERS config)) Hhit1)
        as [e ->].
      exists e. reflexivity.
    - symmetry. apply Z.ltb_lt.
      apply List.Exists_exists in Hhit1 as (r & Hr & Hm & _).
      assert (Hin : In r (List.filter
                            (fun r => isin (EXCLUDE_FUEL_MARKS (FILTERS config))
                                           (raw_fuel_mark r))
                            (List.map (set_fuel_mark to_numeric) (rows df))))
        by (apply filter_In; split; [exact Hr|exact Hm]).
      destruct (List.filter _ _); [destruct Hin|simpl; lia]. }
  destruct Hrule as [e ->]. exists e. reflexivity.
Qed.

Lemma X25_witness :
  exists e : exn,
    @apply_filters plain_platform
      (mkDF all_columns
         [sample_raw (CTime jan_15) (CStr (lit "n/a")) (CNum 0) (CNum 5)
                     (CNum 14)])
      exclude_mark_14
    = Raise e.
Proof.
  apply (@X25_text_amount_in_excluded_row plain_platform
           (mkDF all_columns
              [sample_raw (CTime jan_15) (CStr (lit "n/a")) (CNum 0) (CNum 5)
                          (CNum 14)])
           exclude_mark_14).
  - reflexivity.
  - apply (bool_decide_unpack _). vm_compute. exact I.
  - constructor. split; [reflexivity|]. eexists. reflexivity.
Defined.
